(** * polymarket_explorer: the fetch script [scripts/fetch_data.py]

    A shallow embedding of the three functions of the script
    ([get_event_data], [get_price_history], [main]) and the properties
    of the fetch / persist pipeline stated over it.

    Modelling conventions.
    - JSON values are the Python objects that [response.json()] and
      [json.loads] build: [None], [bool], [int] (unbounded, [Z]), [float]
      (binary64, the kernel's primitive floats), [str], [list], [dict]
      (insertion ordered: an association list looked up from the left,
      whose keys are distinct when it stands for a [dict]).
    - A Python [str] is a [string], one character per position.
    - The program runs in a state-and-exception monad.  The state is what
      the run leaves behind: the HTTP requests issued, the number of clock
      readings taken, the file-system operations and the lines printed.
    - The outside world (the two HTTP services, the clock) and the
      standard library's JSON text decoder are a [World].  The k-th HTTP
      request and the k-th clock reading may each get their own answer.
    - An f-string is kept as its list of pieces, literal text and
      interpolated values, so that no rendering of a value has to be fixed.
    - [json.dump(obj, f, indent=i)] on a freshly opened file is one
      file-system operation [Dump file obj i].  The output directory is
      taken to be writable: it can be created, and the two files with a
      fixed name open.  Whether a history file opens depends on the
      market identifier in its name, and is for the [World] to say. *)

From Stdlib Require Import Floats.
From stdpp Require Import base list strings.
From Stdlib Require Import Ascii ZArith Lia.

Local Open Scope Z_scope.
Local Open Scope string_scope.
Local Open Scope list_scope.
Set Warnings "-register-all".

(** ** Python values *)

Inductive json : Type :=
| JNull
| JBool (b : bool)
| JInt (z : Z)
| JFloat (f : PrimFloat.float)
| JStr (s : string)
| JList (l : list json)
| JDict (kvs : list (string * json)).

(** The exceptions the script can meet.  [RequestException] stands for
    whatever [requests.get] raises, [JSONDecodeError] for a body or text
    that is not JSON, [OSError] and [ValueError] for what [open] raises on
    a name it cannot open. *)
Inductive exn : Type :=
| RequestException (what : string)
| JSONDecodeError
| KeyError (key : json)
| IndexError
| TypeError
| AttributeError
| OSError (what : string)
| ValueError.

(** Pieces of an f-string. *)
Inductive piece : Type :=
| Lit (s : string)
| Fmt (v : json)
| FmtExn (e : exn).

Definition text : Type := list piece.

(** The values an f-string interpolates. *)
Fixpoint interpolated (t : text) : list json :=
  match t with
  | [] => []
  | Fmt v :: t' => v :: interpolated t'
  | _ :: t' => interpolated t'
  end.

(** What a rendering of the pieces gives, for any way [fmt]/[fmte] of
    turning a value or an exception into characters. *)
Fixpoint render (fmt : json -> string) (fmte : exn -> string) (t : text) : string :=
  match t with
  | [] => ""
  | Lit s :: t' => s +:+ render fmt fmte t'
  | Fmt v :: t' => fmt v +:+ render fmt fmte t'
  | FmtExn e :: t' => fmte e +:+ render fmt fmte t'
  end.

(** ** The outside world *)

Record request : Type := mkRequest {
  url : string;
  params : list (string * json)
}.

(** Outcome of [requests.get]: it raised, or it gave a response with a
    status code whose [.json()] gives a value or raises ([None]). *)
Record response : Type := mkResponse {
  status_code : Z;
  body : option json
}.

Inductive http_result : Type :=
| Transport (what : string)
| Response (r : response).

Record World : Type := mkWorld {
  (** the JSON text decoder: the decoded value, or [None] when it raises *)
  decoder : string -> option json;
  (** the answer to the k-th request of the run *)
  remote : nat -> request -> http_result;
  (** [int(time.time())] at the k-th reading of the run *)
  clock : nat -> Z;
  (** what [open(name, "w")] raises when [name] holds this value, a
      market's identifier: [None] when the name opens *)
  unusable : json -> option exn
}.

(** ** What a run leaves behind *)

Inductive fs_op : Type :=
| Makedirs (dir : string)
| Dump (file : text) (obj : json) (indent : option nat).

Record State : Type := mkState {
  http_log : list request;
  clock_reads : nat;
  fs : list fs_op;
  stdout : list text
}.

Definition initial : State := mkState [] 0%nat [] [].

(** ** The monad *)

Inductive result (A : Type) : Type :=
| Ok (a : A)
| Raise (e : exn).
Arguments Ok {A} a.
Arguments Raise {A} e.

Definition M (A : Type) : Type := State -> result A * State.

Definition ret {A} (a : A) : M A := fun st => (Ok a, st).

Definition raise {A} (e : exn) : M A := fun st => (Raise e, st).

Definition bind {A B} (c : M A) (k : A -> M B) : M B :=
  fun st =>
    match c st with
    | (Ok a, st') => k a st'
    | (Raise e, st') => (Raise e, st')
    end.

(** [try: c  except Exception as e: h e] *)
Definition try_except {A} (c : M A) (h : exn -> M A) : M A :=
  fun st =>
    match c st with
    | (Ok a, st') => (Ok a, st')
    | (Raise e, st') => h e st'
    end.

Declare Scope prog_scope.
Delimit Scope prog_scope with prog.
Notation "'let*' x ':=' c 'in' k" := (bind c (fun x => k))
  (at level 10, x name, c at level 100, k at level 200) : prog_scope.
Notation "c '>>' k" := (bind c (fun _ => k))
  (at level 100, k at level 200, right associativity) : prog_scope.
Local Open Scope prog_scope.

Definition print (line : text) : M unit :=
  fun st => (Ok tt, mkState (http_log st) (clock_reads st) (fs st) (stdout st ++ [line])).

Definition os_makedirs (dir : string) : M unit :=
  fun st => (Ok tt, mkState (http_log st) (clock_reads st) (fs st ++ [Makedirs dir]) (stdout st)).

(** [for x in xs: acc = body x acc] *)
Fixpoint for_each {A B} (body : A -> B -> M B) (xs : list A) (acc : B) : M B :=
  match xs with
  | [] => ret acc
  | x :: xs' => let* acc' := body x acc in for_each body xs' acc'
  end.

(** ** Python's dynamic operations on values

    Each operation is a function to [result]: it gives a value or raises.
    The script uses them through [lift]. *)

Definition lift {A} (r : result A) : M A := fun st => (r, st).

(** [bool(v)] *)
Definition truthy (v : json) : bool :=
  match v with
  | JNull => false
  | JBool b => b
  | JInt z => negb (Z.eqb z 0)
  | JFloat f => negb (PrimFloat.eqb f 0%float)
  | JStr s => negb (String.eqb s "")
  | JList l => match l with [] => false | _ :: _ => true end
  | JDict kvs => match kvs with [] => false | _ :: _ => true end
  end.

(** [isinstance(v, list)] *)
Definition is_list (v : json) : bool :=
  match v with JList _ => true | _ => false end.

Fixpoint lookup_key (k : string) (kvs : list (string * json)) : option json :=
  match kvs with
  | [] => None
  | (k', v) :: kvs' => if String.eqb k k' then Some v else lookup_key k kvs'
  end.

(** [v.get(k, default)] *)
Definition get (v : json) (k : string) (default : json) : result json :=
  match v with
  | JDict kvs => Ok (match lookup_key k kvs with Some x => x | None => default end)
  | _ => Raise AttributeError
  end.

(** [v[k]] for a string [k] *)
Definition getitem (v : json) (k : string) : result json :=
  match v with
  | JDict kvs =>
      match lookup_key k kvs with
      | Some x => Ok x
      | None => Raise (KeyError (JStr k))
      end
  | _ => Raise TypeError
  end.

(** the characters of a [str], each a [str] of length one *)
Fixpoint chars (s : string) : list json :=
  match s with
  | EmptyString => []
  | String c s' => JStr (String c EmptyString) :: chars s'
  end.

(** [v[0]] *)
Definition getitem_0 (v : json) : result json :=
  match v with
  | JList l => match l with x :: _ => Ok x | [] => Raise IndexError end
  | JStr s => match chars s with x :: _ => Ok x | [] => Raise IndexError end
  | JDict _ => Raise (KeyError (JInt 0))
  | _ => Raise TypeError
  end.

(** [len(v)] *)
Definition len (v : json) : result Z :=
  match v with
  | JList l => Ok (Z.of_nat (length l))
  | JDict kvs => Ok (Z.of_nat (length kvs))
  | JStr s => Ok (Z.of_nat (String.length s))
  | _ => Raise TypeError
  end.

(** the elements [for x in v] goes through *)
Definition iter (v : json) : result (list json) :=
  match v with
  | JList l => Ok l
  | JDict kvs => Ok (map (fun kv => JStr (fst kv)) kvs)
  | JStr s => Ok (chars s)
  | _ => Raise TypeError
  end.

Fixpoint substringb (k s : string) : bool :=
  String.prefix k s ||
  match s with
  | EmptyString => false
  | String _ s' => substringb k s'
  end.

Definition is_str (k : string) (v : json) : bool :=
  match v with JStr s => String.eqb s k | _ => false end.

(** [k in v] for a string [k] *)
Definition contains (k : string) (v : json) : result bool :=
  match v with
  | JDict kvs => Ok (match lookup_key k kvs with Some _ => true | None => false end)
  | JList l => Ok (existsb (is_str k) l)
  | JStr s => Ok (substringb k s)
  | _ => Raise TypeError
  end.

(** ** The script *)

Section Script.

Context (w : World).

(** [requests.get(url, params=params)] *)
Definition requests_get (url : string) (params : list (string * json)) : M response :=
  fun st =>
    let r := mkRequest url params in
    let st' := mkState (http_log st ++ [r]) (clock_reads st) (fs st) (stdout st) in
    match remote w (length (http_log st)) r with
    | Transport what => (Raise (RequestException what), st')
    | Response resp => (Ok resp, st')
    end.

(** [response.json()] *)
Definition response_json (r : response) : M json :=
  match body r with
  | Some v => ret v
  | None => raise JSONDecodeError
  end.

(** [json.loads(s)] *)
Definition json_loads (s : string) : M json :=
  match decoder w s with
  | Some v => ret v
  | None => raise JSONDecodeError
  end.

(** [open(file, "w")]: a name without interpolated value opens; a name
    that holds a market's identifier opens unless the identifier makes it
    unusable. *)
Definition open_w (file : text) : M unit :=
  match interpolated file with
  | [] => ret tt
  | id :: _ =>
      match unusable w id with
      | Some e => raise e
      | None => ret tt
      end
  end.

(** [with open(file, "w") as f: json.dump(obj, f, indent=indent)] *)
Definition json_dump (file : text) (obj : json) (indent : option nat) : M unit :=
  open_w file >>
  fun st =>
    (Ok tt,
     mkState (http_log st) (clock_reads st) (fs st ++ [Dump file obj indent])
       (stdout st)).

(** [int(time.time())] *)
Definition time_time : M Z :=
  fun st =>
    (Ok (clock w (clock_reads st)),
     mkState (http_log st) (S (clock_reads st)) (fs st) (stdout st)).

Definition get_event_data (slug : string) : M json :=
  let url := "https://gamma-api.polymarket.com/events?slug=" +:+ slug in
  try_except
    (let* response := requests_get url [] in
     if Z.eqb (status_code response) 200 then
       response_json response
     else
       print [Lit "Error fetching event: "; Fmt (JInt (status_code response))] >>
       ret JNull)
    (fun e =>
       print [Lit "Exception fetching event: "; FmtExn e] >>
       ret JNull).

Definition get_price_history (market_id : json) (start_ts : Z) : M json :=
  let url := "https://clob.polymarket.com/prices-history" in
  let params :=
    [("market", market_id); ("startTs", JInt start_ts); ("fidelity", JInt 1)] in
  try_except
    (let* response := requests_get url params in
     if Z.eqb (status_code response) 200 then
       response_json response
     else
       print [Lit "Error fetching history for "; Fmt market_id; Lit ": ";
              Fmt (JInt (status_code response))] >>
       ret JNull)
    (fun e =>
       print [Lit "Exception fetching history: "; FmtExn e] >>
       ret JNull).

(** The name of a market's history file,
    [f"public/data/history_{market['id']}.json"]. *)
Definition history_file (id : json) : text :=
  [Lit "public/data/history_"; Fmt id; Lit ".json"].

(** One turn of the loop [for market in markets] of [main]; [stats] is the
    list the loop appends to. *)
Definition process_market (market : json) (stats : list json) : M (list json) :=
  let* question := lift (get market "question" (JStr "")) in
  print [Lit "Processing: "; Fmt question] >>
  let* clob_token_ids := lift (get market "clobTokenIds" (JList [])) in
  let* clob_token_ids :=
    match clob_token_ids with
    | JStr s => try_except (json_loads s) (fun _ => ret (JList []))
    | _ => ret clob_token_ids
    end in
  if negb (truthy clob_token_ids) then
    print [Lit "No clobTokenIds."] >>
    ret stats
  else
    let* yes_token_id := lift (getitem_0 clob_token_ids) in
    let* now := time_time in
    let start_ts := now - 14 * 24 * 3600 in
    let* history := get_price_history yes_token_id start_ts in
    let* found :=
      if truthy history then lift (contains "history" history) else ret false in
    if found then
      let* points := lift (getitem history "history") in
      let* n := lift (len points) in
      print [Lit "  Fetched "; Fmt (JInt n); Lit " points."] >>
      let* id := lift (getitem market "id") in
      json_dump (history_file id) history None >>
      let* id := lift (getitem market "id") in
      let* n := lift (len points) in
      let* volume := lift (get market "volume" (JInt 0)) in
      ret (stats ++ [JDict [("id", id); ("question", question);
                            ("token_id", yes_token_id); ("points", JInt n);
                            ("volume", volume)]])
    else
      print [Lit "  No history."] >>
      ret stats.

Definition event_file : text := [Lit "public/data/event.json"].
Definition summary_file : text := [Lit "public/data/summary.json"].

Definition main : M unit :=
  let slug := "portugal-presidential-election" in
  print [Lit "Fetching event: "; Fmt (JStr slug)] >>
  let* events := get_event_data slug in
  if negb (truthy events) then
    print [Lit "No events found."]
  else
    let* event :=
      if is_list events then
        let* n := lift (len events) in
        if Z.eqb n 0 then
          print [Lit "Empty event list."] >>
          ret None
        else
          let* e := lift (getitem_0 events) in
          ret (Some e)
      else
        ret (Some events) in
    match event with
    | None => ret tt
    | Some event =>
        let* markets := lift (get event "markets" (JList [])) in
        let* n := lift (len markets) in
        print [Lit "Found "; Fmt (JInt n); Lit " markets."] >>
        os_makedirs "public/data" >>
        json_dump event_file event (Some 2%nat) >>
        let* markets := lift (iter markets) in
        let* stats := for_each process_market markets [] in
        json_dump summary_file (JList stats) (Some 2%nat)
    end.

End Script.

(** ** Vocabulary of the properties *)

Definition events_url : string :=
  "https://gamma-api.polymarket.com/events?slug=portugal-presidential-election".

Definition events_request : request := mkRequest events_url [].

Definition prices_url : string := "https://clob.polymarket.com/prices-history".

(** The request [get_price_history] sends. *)
Definition history_request (market_id : json) (start_ts : Z) : request :=
  mkRequest prices_url
    [("market", market_id); ("startTs", JInt start_ts); ("fidelity", JInt 1)].

(** The value a fetcher hands back for an outcome of [requests.get]: the
    decoded body of a 200 response, [None] in every other case. *)
Definition payload (hr : http_result) : json :=
  match hr with
  | Response r =>
      if Z.eqb (status_code r) 200 then
        match body r with Some v => v | None => JNull end
      else JNull
  | Transport _ => JNull
  end.

(** A line that no rendering turns into the message of the empty-list
    branch of [main]. *)
Definition not_empty_list_message (line : text) : Prop :=
  forall fmt fmte, render fmt fmte line <> "Empty event list.".

Definition add_requests (rs : list request) (st : State) : State :=
  mkState (http_log st ++ rs) (clock_reads st) (fs st) (stdout st).

Definition add_lines (ls : list text) (st : State) : State :=
  mkState (http_log st) (clock_reads st) (fs st) (stdout st ++ ls).

(** [recorded m op e]: the market [m] went through to the end of its turn
    of the loop, which wrote [op] and appended [e] to the summary. *)
Inductive recorded : json -> fs_op -> json -> Prop :=
| recorded_intro kvs id h points n tok :
    lookup_key "id" kvs = Some id ->
    getitem h "history" = Ok points ->
    len points = Ok n ->
    recorded (JDict kvs)
      (Dump (history_file id) h None)
      (JDict [("id", id);
              ("question", default (JStr "") (lookup_key "question" kvs));
              ("token_id", tok);
              ("points", JInt n);
              ("volume", default (JInt 0) (lookup_key "volume" kvs))]).

(** What one turn of the loop can do to the run. *)
Inductive turn (m : json) (stats : list json) :
  result (list json) -> list fs_op -> Prop :=
| turn_skip : turn m stats (Ok stats) []
| turn_raise e : turn m stats (Raise e) []
| turn_record op e :
    recorded m op e -> turn m stats (Ok (stats ++ [e])) [op].

(** The state after [reqs] more requests, each after one more reading of
    the clock, [ops] more file operations and [lines] more lines. *)
Definition advance (reqs : list request) (ops : list fs_op) (lines : list text)
    (st : State) : State :=
  mkState (http_log st ++ reqs) (clock_reads st + length reqs)%nat
    (fs st ++ ops) (stdout st ++ lines).

(** The requests of a run of the loop that starts at the [c]-th reading of
    the clock and reaches the fetcher with the tokens [toks], in turn. *)
Definition history_requests (w : World) (c : nat) (toks : list json) : list request :=
  imap (fun k tok => history_request tok (clock w (c + k) - 14 * 24 * 3600)) toks.

(** A market that was recorded, with its history file and summary entry. *)
Record row : Type := mkRow {
  row_market : json;
  row_file : fs_op;
  row_entry : json
}.

Definition row_ok (r : row) : Prop :=
  recorded (row_market r) (row_file r) (row_entry r).

(** The event [main] works on, for a resolver result that is not falsy:
    the first element of a list, the value itself otherwise. *)
Definition resolved_event (events : json) : json :=
  match events with
  | JList (e :: _) => e
  | _ => events
  end.

(** The markets the loop of [main] goes through. *)
Definition event_markets (event : json) : result (list json) :=
  match get event "markets" (JList []) with
  | Ok markets => iter markets
  | Raise e => Raise e
  end.

(** The resolver's result in a run of [main]. *)
Definition resolved (w : World) : json := payload (remote w 0%nat events_request).

(** The ways a run of [main] can end.  [toks] are the tokens the history
    fetcher was called with and [rows] the markets that were recorded. *)
Inductive main_outcome (w : World) : result unit -> State -> Prop :=
| outcome_no_events lines :
    truthy (resolved w) = false ->
    Forall not_empty_list_message lines ->
    main_outcome w (Ok tt) (mkState [events_request] 0 [] lines)
| outcome_no_markets e lines :
    truthy (resolved w) = true ->
    event_markets (resolved_event (resolved w)) = Raise e ->
    Forall not_empty_list_message lines ->
    main_outcome w (Raise e) (mkState [events_request] 0 [] lines)
| outcome_market_raised e ms toks rows lines :
    truthy (resolved w) = true ->
    event_markets (resolved_event (resolved w)) = Ok ms ->
    sublist (map row_market rows) ms ->
    Forall row_ok rows ->
    Forall not_empty_list_message lines ->
    main_outcome w (Raise e)
      (mkState (events_request :: history_requests w 0 toks) (length toks)
         ([Makedirs "public/data";
           Dump event_file (resolved_event (resolved w)) (Some 2%nat)]
          ++ map row_file rows)
         lines)
| outcome_completed ms toks rows lines :
    truthy (resolved w) = true ->
    event_markets (resolved_event (resolved w)) = Ok ms ->
    sublist (map row_market rows) ms ->
    Forall row_ok rows ->
    Forall not_empty_list_message lines ->
    main_outcome w (Ok tt)
      (mkState (events_request :: history_requests w 0 toks) (length toks)
         ([Makedirs "public/data";
           Dump event_file (resolved_event (resolved w)) (Some 2%nat)]
          ++ map row_file rows
          ++ [Dump summary_file (JList (map row_entry rows)) (Some 2%nat)])
         lines).

(** The token list of a market once [main] has normalised it, for the
    shapes the metadata service documents: [clobTokenIds] absent, a list,
    or a string that is the JSON text of a list or that does not decode. *)
Definition token_list (w : World) (market : json) : option (list json) :=
  match market with
  | JDict kvs =>
      match lookup_key "clobTokenIds" kvs with
      | None => Some []
      | Some (JList l) => Some l
      | Some (JStr s) =>
          match decoder w s with
          | None => Some []
          | Some (JList l) => Some l
          | Some _ => None
          end
      | Some _ => None
      end
  | _ => None
  end.






(** The answers of the time-series service after which a market is
    skipped: the transport failed, the status is not 200, the body does not
    decode, or the decoded body is falsy or has no [history]. *)
Definition no_history (answer : http_result) : Prop :=
  (exists what, answer = Transport what)
  \/ (exists r, answer = Response r /\ (status_code r <> 200 \/ body r = None))
  \/ (exists r j,
        answer = Response r /\ status_code r = 200 /\ body r = Some j
        /\ (truthy j = false \/ contains "history" j = Ok false)).

(** The value [main] holds in [clob_token_ids] once lines 75 to 80 have
    run on a market object: the attribute, decoded when it is a string (the
    empty list when it does not decode), the empty list when it is absent. *)
Definition normalised_tokens (w : World) (kvs : list (string * json)) : json :=
  match lookup_key "clobTokenIds" kvs with
  | None => JList []
  | Some (JStr s) =>
      match decoder w s with
      | Some v => v
      | None => JList []
      end
  | Some v => v
  end.

(** [isinstance(v, dict)] *)
Definition is_dict (v : json) : bool :=
  match v with JDict _ => true | _ => false end.

(** The state of a run when the loop of [main] starts. *)
Definition loop_start (w : World) (lines : list text) : State :=
  mkState [events_request] 0
    [Makedirs "public/data";
     Dump event_file (resolved_event (resolved w)) (Some 2%nat)]
    lines.

(** A summary entry as [main] builds it. *)
Definition entry_shape (e : json) : Prop :=
  exists id question tok n volume,
    e = JDict [("id", id); ("question", question); ("token_id", tok);
               ("points", JInt n); ("volume", volume)]
    /\ 0 <= n.

(** A history file that holds what the time-series service answered,
    with status 200, to one of the requests in [log]. *)
Definition holds_answer (w : World) (log : list request) (op : fs_op) : Prop :=
  exists id k tok ts obj,
    log !! k = Some (history_request tok ts)
    /\ remote w k (history_request tok ts) = Response (mkResponse 200 (Some obj))
    /\ op = Dump (history_file id) obj None.

(** The first tokens of the markets that have one, in the order of the
    markets. *)
Definition first_tokens (w : World) (ms : list json) : list json :=
  omap (fun m => match token_list w m with
                 | Some (tok :: _) => Some tok
                 | _ => None
                 end) ms.

(** A market object whose token list has one of the documented shapes;
    it need not have an identifier. *)
Definition has_token_list (w : World) (market : json) : Prop :=
  is_dict market = true /\ exists toks, token_list w market = Some toks.

(** The token [main] sends to the history fetcher in the turn of a
    market, when the turn gets that far: element 0 of the market's token
    value, if that value is truthy and has an element 0. *)
Definition queried_token (w : World) (market : json) : option json :=
  match market with
  | JDict kvs =>
      if truthy (normalised_tokens w kvs) then
        match getitem_0 (normalised_tokens w kvs) with
        | Ok tok => Some tok
        | Raise _ => None
        end
      else None
  | _ => None
  end.

(** The history retrieval succeeded: the test of line 96,
    [history and 'history' in history], holds. *)
Definition retrieved (history : json) : bool :=
  truthy history
  && match contains "history" history with
     | Ok b => b
     | Raise _ => false
     end.

Record retrieval : Type := mkRetrieval {
  rt_market : json;
  rt_token : json;
  rt_history : json
}.

(** The markets whose history retrieval succeeds, in the order of the
    markets, each with the token queried and the history obtained, for a
    loop that starts after [k] history requests and readings of the clock:
    the request of a market is the next request of the run, with the start
    timestamp of the next reading. *)
Fixpoint retrievals (w : World) (k : nat) (ms : list json) : list retrieval :=
  match ms with
  | [] => []
  | m :: ms' =>
      match queried_token w m with
      | None => retrievals w k ms'
      | Some tok =>
          let history :=
            payload
              (remote w (S k)
                 (history_request tok (clock w k - 14 * 24 * 3600))) in
          if retrieved history then
            mkRetrieval m tok history :: retrievals w (S k) ms'
          else retrievals w (S k) ms'
      end
  end.

(** [row_of r x]: the row [x] is the one of the retrieval [r]: same
    market, the history obtained in the market's history file, the market's
    identifier and the token queried in the entry. *)
Definition row_of (r : retrieval) (x : row) : Prop :=
  row_market x = rt_market r
  /\ exists id,
       getitem (rt_market r) "id" = Ok id
       /\ row_file x = Dump (history_file id) (rt_history r) None
       /\ getitem (row_entry x) "id" = Ok id
       /\ getitem (row_entry x) "token_id" = Ok (rt_token r).

(** ** Sample runs *)

Definition market_m1 : json :=
  JDict [("id", JStr "m1"); ("question", JStr "Will A win?");
         ("clobTokenIds", JList [JStr "t1"; JStr "t2"]); ("volume", JInt 500)].

Definition market_m2 : json :=
  JDict [("id", JStr "m2"); ("question", JStr "Will B win?");
         ("clobTokenIds", JList [JStr "t3"; JStr "t4"]); ("volume", JInt 10)].

Definition market_m3 : json :=
  JDict [("id", JStr "m3"); ("question", JStr "Will C win?");
         ("clobTokenIds", JStr "[]"); ("volume", JInt 7)].

Definition market_m4 : json :=
  JDict [("id", JStr "m4"); ("question", JStr "Will D win?");
         ("clobTokenIds", JStr "not json"); ("volume", JInt 700)].

Definition market_m5 : json :=
  JDict [("id", JStr "m5"); ("question", JStr "Will E win?");
         ("clobTokenIds", JList [JStr "t9"]); ("volume", JFloat 1234.5%float)].

(** a market without an identifier *)
Definition market_no_id : json :=
  JDict [("question", JStr "Will F win?");
         ("clobTokenIds", JList [JStr "t5"; JStr "t6"])].

(** a market whose token list is a number *)
Definition market_bad_tokens : json :=
  JDict [("id", JStr "m7"); ("question", JStr "Will G win?");
         ("clobTokenIds", JInt 5)].

Definition sample_history : json :=
  JDict [("history",
          JList [JDict [("t", JInt 1); ("p", JFloat 0.5%float)];
                 JDict [("t", JInt 2); ("p", JFloat 0.75%float)]])].

Definition event_of (markets : list json) : json :=
  JDict [("markets", JList markets)].

(** A decoder that knows the text of the empty list only. *)
Definition sample_decoder (s : string) : option json :=
  if String.eqb s "[]" then Some (JList []) else None.

(** Both services answer 200: the first request gets [events], every
    later one [sample_history]. *)
Definition sample_remote (events : json) (k : nat) (r : request) : http_result :=
  match k with
  | O => Response (mkResponse 200 (Some events))
  | S _ => Response (mkResponse 200 (Some sample_history))
  end.

(** A clock that moves on by one second between two readings. *)
Definition ticking (k : nat) : Z := 1700000000 + Z.of_nat k.

Definition sample_world (events : json) : World :=
  mkWorld sample_decoder (sample_remote events) ticking (fun _ => None).

(** the example of the specification: one market, given as an object *)
Definition world_example : World := sample_world (event_of [market_m1]).

(** five markets in a list response; the third and fourth have no token *)
Definition world_five : World :=
  sample_world
    (JList [event_of [market_m1; market_m2; market_m3; market_m4; market_m5]]).

Definition world_missing_id : World :=
  sample_world (event_of [market_m1; market_no_id; market_m2]).

Definition world_bad_tokens : World :=
  sample_world (event_of [market_bad_tokens; market_m1]).

(** the metadata service answers with an empty array *)
Definition world_empty : World := sample_world (JList []).

(** the metadata service answers with a string, which is no event *)
Definition world_not_an_event : World := sample_world (JStr "maintenance").

(** the metadata service answers 200 with a body that is not JSON *)
Definition world_bad_body : World :=
  mkWorld sample_decoder (fun _ _ => Response (mkResponse 200 None)) ticking
    (fun _ => None).

(** the time-series service is down *)
Definition world_no_history : World :=
  mkWorld sample_decoder
    (fun k _ =>
       match k with
       | O => Response (mkResponse 200 (Some (event_of [market_m1; market_m2])))
       | S _ => Response (mkResponse 503 None)
       end)
    ticking (fun _ => None).





(** an event without a [markets] attribute *)
Definition world_no_markets : World :=
  sample_world (JDict [("title", JStr "Election")]).

(** an event whose [markets] is an object keyed by identifier *)
Definition world_markets_object : World :=
  sample_world (JDict [("markets", JDict [("m1", market_m1)])]).

(** the time-series service answers with a [history] that is a number *)
Definition world_unsized_history : World :=
  mkWorld sample_decoder
    (fun k _ =>
       match k with
       | O => Response (mkResponse 200 (Some (event_of [market_m1; market_m2])))
       | S _ => Response (mkResponse 200 (Some (JDict [("history", JInt 5)])))
       end)
    ticking (fun _ => None).

(** the time-series service answers the first request with the sample
    history, the second with status 503 and every later one with an empty
    history *)
Definition world_mixed : World :=
  mkWorld sample_decoder
    (fun k _ =>
       match k with
       | O =>
           Response
             (mkResponse 200
                (Some (event_of [market_m1; market_m2; market_m3; market_m5])))
       | S O => Response (mkResponse 200 (Some sample_history))
       | S (S O) => Response (mkResponse 503 None)
       | S (S (S _)) =>
           Response (mkResponse 200 (Some (JDict [("history", JList [])])))
       end)
    ticking (fun _ => None).

(** ** Properties *)

Section Properties.

Context (w : World).

#[local] Arguments truthy : simpl never.
#[local] Arguments getitem_0 : simpl never.
#[local] Arguments contains : simpl never.
#[local] Arguments len : simpl never.
#[local] Arguments lookup_key : simpl never.

Ltac run_monad :=
  unfold bind, ret, raise, try_except, print, os_makedirs, json_dump, open_w,
    time_time, requests_get, response_json, json_loads, lift in *;
  simpl in *.

(** The event resolver always returns: every exception raised inside it
    is handled there. *)
Lemma get_event_data_returns slug st :
  exists lines,
    get_event_data w slug st =
      (Ok (payload (remote w (length (http_log st))
                      (mkRequest ("https://gamma-api.polymarket.com/events?slug=" +:+ slug) []))),
       add_lines lines
         (add_requests
            [mkRequest ("https://gamma-api.polymarket.com/events?slug=" +:+ slug) []] st))
    /\ (length lines <= 1)%nat
    /\ Forall not_empty_list_message lines.
Proof.
  unfold get_event_data, payload, add_lines, add_requests. run_monad.
  destruct (remote w _ _) as [what | [code [v |]]]; simpl.
  - eexists [_]; split; [reflexivity | split; [simpl; lia |]].
    repeat constructor. intros fmt fmte; simpl; discriminate.
  - destruct (Z.eqb code 200); simpl.
    + exists []. rewrite app_nil_r. repeat split; auto.
    + eexists [_]; split; [reflexivity | split; [simpl; lia |]].
      repeat constructor. intros fmt fmte; simpl; discriminate.
  - destruct (Z.eqb code 200); simpl.
    + eexists [_]; split; [reflexivity | split; [simpl; lia |]].
      repeat constructor. intros fmt fmte; simpl; discriminate.
    + eexists [_]; split; [reflexivity | split; [simpl; lia |]].
      repeat constructor. intros fmt fmte; simpl; discriminate.
Qed.

(** So does the history fetcher. *)
Lemma get_price_history_returns market_id start_ts st :
  exists lines,
    get_price_history w market_id start_ts st =
      (Ok (payload (remote w (length (http_log st))
                      (history_request market_id start_ts))),
       add_lines lines (add_requests [history_request market_id start_ts] st))
    /\ (length lines <= 1)%nat
    /\ Forall not_empty_list_message lines.
Proof.
  unfold get_price_history, payload, add_lines, add_requests, history_request,
    prices_url.
  run_monad.
  destruct (remote w _ _) as [what | [code [v |]]]; simpl.
  - eexists [_]; split; [reflexivity | split; [simpl; lia |]].
    repeat constructor. intros fmt fmte; simpl; discriminate.
  - destruct (Z.eqb code 200); simpl.
    + exists []. rewrite app_nil_r. repeat split; auto.
    + eexists [_]; split; [reflexivity | split; [simpl; lia |]].
      repeat constructor. intros fmt fmte; simpl; discriminate.
  - destruct (Z.eqb code 200); simpl.
    + eexists [_]; split; [reflexivity | split; [simpl; lia |]].
      repeat constructor. intros fmt fmte; simpl; discriminate.
    + eexists [_]; split; [reflexivity | split; [simpl; lia |]].
      repeat constructor. intros fmt fmte; simpl; discriminate.
Qed.

Lemma advance_intro st h c f o reqs ops lines :
  h = http_log st ++ reqs ->
  c = (clock_reads st + length reqs)%nat ->
  f = fs st ++ ops ->
  o = stdout st ++ lines ->
  mkState h c f o = advance reqs ops lines st.
Proof. intros -> -> -> ->. reflexivity. Qed.

Lemma literal_line_ok c1 c2 s rest :
  (c1, c2) <> ("E"%char, "m"%char) ->
  not_empty_list_message (Lit (String c1 (String c2 s)) :: rest).
Proof.
  intros Hne fmt fmte. simpl. intros Heq. apply Hne.
  injection Heq as -> -> _. reflexivity.
Qed.

Ltac literal_lines :=
  repeat first
    [ apply Forall_nil_2
    | apply Forall_app_2
    | apply Forall_cons_2
    | apply literal_line_ok; discriminate
    | assumption ].

Ltac list_delta :=
  first
    [ reflexivity
    | symmetry; apply app_nil_r
    | rewrite <- ?app_assoc; reflexivity ].

Ltac close_turn :=
  eexists _, _, _, _;
  split;
  [ apply f_equal2; [reflexivity |];
    apply advance_intro; [list_delta | simpl; lia | list_delta | list_delta]
  | split; [| split]; [ | eauto | literal_lines] ].

Lemma process_market_turn market stats st :
  exists r reqs ops lines,
    process_market w market stats st = (r, advance reqs ops lines st)
    /\ turn market stats r ops
    /\ (reqs = [] \/
        exists tok,
          reqs = [history_request tok (clock w (clock_reads st) - 14 * 24 * 3600)])
    /\ Forall not_empty_list_message lines.
Proof.
  unfold process_market. destruct st as [h0 c0 f0 o0].
  destruct market as [| b | z | f | s | l | kvs];
    try (run_monad; close_turn; constructor).
  run_monad.
  destruct (lookup_key "clobTokenIds" kvs) as [[| b | z | f | s | l | tk] |];
    try destruct (decoder w s) as [c |]; simpl.
  all: repeat match goal with
       | |- context [negb (truthy ?X)] => destruct (truthy X) eqn:?; simpl
       | |- context [match getitem_0 ?X with _ => _ end] =>
           destruct (getitem_0 X) eqn:?; simpl
       | |- context [get_price_history w ?t ?ts ?s0] =>
           let lines := fresh "lines" in
           destruct (get_price_history_returns t ts s0) as (lines & -> & ? & ?);
           unfold add_lines, add_requests; simpl
       | |- context [if truthy ?X then _ else _] =>
           destruct (truthy X) eqn:?; simpl
       | |- context [match contains ?k ?X with _ => _ end] =>
           destruct (contains k X) as [[|] |] eqn:?; simpl
       | |- context [match getitem ?X ?k with _ => _ end] =>
           destruct (getitem X k) eqn:?; simpl
       | |- context [match len ?X with _ => _ end] =>
           destruct (len X) eqn:?; simpl
       | |- context [match lookup_key "id" ?X with _ => _ end] =>
           destruct (lookup_key "id" X) eqn:?; simpl
       | |- context [match unusable w ?X with _ => _ end] =>
           destruct (unusable w X) eqn:?; simpl
       end.
  all: close_turn.
  all: first [constructor; fail | apply turn_record; econstructor; eassumption].
Qed.

Lemma advance_advance reqs1 ops1 lines1 reqs2 ops2 lines2 st :
  advance reqs2 ops2 lines2 (advance reqs1 ops1 lines1 st) =
  advance (reqs1 ++ reqs2) (ops1 ++ ops2) (lines1 ++ lines2) st.
Proof.
  unfold advance; simpl. rewrite !app_assoc, length_app. f_equal. lia.
Qed.

Lemma history_requests_cons c tok toks :
  history_requests w c (tok :: toks) =
  history_request tok (clock w c - 14 * 24 * 3600)
    :: history_requests w (c + 1) toks.
Proof.
  unfold history_requests. rewrite imap_cons, Nat.add_0_r. f_equal.
  apply imap_ext. intros k x _. simpl. do 3 f_equal. lia.
Qed.

Lemma history_requests_app c toks1 toks2 :
  history_requests w c (toks1 ++ toks2) =
  history_requests w c toks1 ++ history_requests w (c + length toks1) toks2.
Proof.
  unfold history_requests. rewrite imap_app. f_equal.
  apply imap_ext. intros k x _. simpl. do 3 f_equal. lia.
Qed.

Lemma history_requests_length c toks :
  length (history_requests w c toks) = length toks.
Proof. unfold history_requests. apply length_imap. Qed.

(** The loop of [main], whatever the markets are: the markets recorded
    are a subsequence of the markets, each wrote one history file, and the
    summary grows by their entries, in that order. *)
Lemma for_each_process_market ms : forall stats st,
  exists r toks rows lines,
    for_each (process_market w) ms stats st =
      (r, advance (history_requests w (clock_reads st) toks)
            (map row_file rows) lines st)
    /\ sublist (map row_market rows) ms
    /\ Forall row_ok rows
    /\ (r = Ok (stats ++ map row_entry rows) \/ exists e, r = Raise e)
    /\ Forall not_empty_list_message lines.
Proof.
  induction ms as [| m ms IH]; intros stats st.
  - exists (Ok stats), [], [], []. simpl. unfold ret, advance. simpl.
    rewrite !app_nil_r, Nat.add_0_r. destruct st.
    repeat split; auto; constructor.
  - destruct (process_market_turn m stats st)
      as (r1 & reqs1 & ops1 & lines1 & Heq & Hturn & Hreqs & Hlines).
    simpl. unfold bind. rewrite Heq.
    assert (Hreqs' : exists toks1,
               reqs1 = history_requests w (clock_reads st) toks1
               /\ (clock_reads st + length reqs1 =
                   clock_reads st + length toks1)%nat).
    { destruct Hreqs as [-> | [tok ->]].
      - exists []. split; reflexivity.
      - exists [tok]. rewrite history_requests_cons. split; reflexivity. }
    destruct Hreqs' as (toks1 & -> & Hlen).
    inversion Hturn as [| e | op e Hrec]; subst.
    + destruct (IH stats (advance (history_requests w (clock_reads st) toks1)
                            [] lines1 st))
        as (r & toks & rows & lines & Heq2 & Hsub & Hrows & Hr & Hl).
      exists r, (toks1 ++ toks), rows, (lines1 ++ lines).
      rewrite Heq2, advance_advance. simpl clock_reads.
      rewrite history_requests_length, history_requests_app.
      split; [reflexivity |].
      split; [by apply sublist_cons |].
      split; [assumption |].
      split; [assumption | by apply Forall_app_2].
    + exists (Raise e), toks1, [], lines1.
      repeat split; eauto. apply sublist_nil_l.
    + destruct (IH (stats ++ [e])
                  (advance (history_requests w (clock_reads st) toks1)
                     [op] lines1 st))
        as (r & toks & rows & lines & Heq2 & Hsub & Hrows & Hr & Hl).
      exists r, (toks1 ++ toks), (mkRow m op e :: rows), (lines1 ++ lines).
      rewrite Heq2, advance_advance. simpl clock_reads.
      rewrite history_requests_length, history_requests_app.
      split; [reflexivity |].
      split; [by apply sublist_skip |].
      split; [by apply Forall_cons_2 |].
      split; [| by apply Forall_app_2].
      destruct Hr as [-> | ?]; [left | by right].
      simpl. by rewrite <- app_assoc.
Qed.

Lemma len_iter v e : len v = Raise e -> iter v = Raise e.
Proof. destruct v; unfold len, iter; congruence. Qed.

Lemma len_iter_ok v n : len v = Ok n -> exists ms, iter v = Ok ms.
Proof. destruct v; unfold len, iter; try discriminate; eauto. Qed.

Lemma bind_ok {A B} (c : M A) (k : A -> M B) st a st' :
  c st = (Ok a, st') -> bind c k st = k a st'.
Proof. unfold bind. intros ->. reflexivity. Qed.

Lemma bind_raise {A B} (c : M A) (k : A -> M B) st e st' :
  c st = (Raise e, st') -> bind c k st = (Raise e, st').
Proof. unfold bind. intros ->. reflexivity. Qed.

(** The choice of the event in [main], lines 43 to 49, for a result of the
    resolver that passed the emptiness check. *)
Lemma choose_event events st :
  truthy events = true ->
  (if is_list events then
     let* n := lift (len events) in
     if Z.eqb n 0 then
       print [Lit "Empty event list."] >> ret None
     else
       let* e := lift (getitem_0 events) in ret (Some e)
   else ret (Some events)) st
  = (Ok (Some (resolved_event events)), st).
Proof.
  intros Htruthy.
  destruct events as [| | | | | [| x l] |]; try reflexivity.
  discriminate Htruthy.
Qed.

(** Every run of [main] ends in one of the four ways of [main_outcome]. *)
Lemma main_outcomes : main_outcome w (main w initial).1 (main w initial).2.
Proof.
  unfold main.
  erewrite bind_ok by reflexivity.
  destruct (get_event_data_returns "portugal-presidential-election"
              (mkState (http_log initial) (clock_reads initial) (fs initial)
                 (stdout initial ++
                    [[Lit "Fetching event: ";
                      Fmt (JStr "portugal-presidential-election")]])))
    as (lines0 & Heq & _ & Hlines0).
  erewrite bind_ok by apply Heq.
  change (mkRequest ("https://gamma-api.polymarket.com/events?slug=" +:+
                     "portugal-presidential-election") [])
    with events_request.
  change (payload (remote w _ events_request)) with (resolved w).
  unfold add_lines, add_requests. simpl.
  destruct (truthy (resolved w)) eqn:Htruthy; simpl.
  2: { apply outcome_no_events; [assumption | literal_lines]. }
  erewrite bind_ok by (by apply choose_event).
  destruct (get (resolved_event (resolved w)) "markets" (JList []))
    as [markets | e] eqn:Hget.
  2: { erewrite bind_raise by (unfold lift; rewrite ?Hget; reflexivity).
       apply outcome_no_markets; [assumption | | literal_lines].
       unfold event_markets. by rewrite Hget. }
  erewrite bind_ok by (unfold lift; rewrite ?Hget; reflexivity).
  cbv beta.
  destruct (len markets) as [n | e] eqn:Hlen.
  2: { erewrite bind_raise by (unfold lift; rewrite ?Hlen; reflexivity).
       apply outcome_no_markets; [assumption | | literal_lines].
       unfold event_markets. rewrite Hget. by apply len_iter. }
  destruct (len_iter_ok _ _ Hlen) as [ms Hiter].
  erewrite bind_ok by (unfold lift; rewrite ?Hlen; reflexivity).
  cbv beta.
  do 3 (erewrite bind_ok by reflexivity; cbv beta).
  erewrite bind_ok by (unfold lift; rewrite ?Hiter; reflexivity).
  simpl.
  match goal with
  | |- context [bind (for_each (process_market w) ms []) _ ?st0] =>
      destruct (for_each_process_market ms [] st0)
        as (r & toks & rows & lines & Hloop & Hsub & Hrows & Hr & Hlines)
  end.
  assert (Hms : event_markets (resolved_event (resolved w)) = Ok ms).
  { unfold event_markets. by rewrite Hget. }
  destruct Hr as [-> | [e ->]].
  - erewrite bind_ok by apply Hloop.
    unfold json_dump, advance. simpl.
    rewrite <- app_assoc, history_requests_length.
    apply outcome_completed with (ms := ms); auto. literal_lines.
  - erewrite bind_raise by apply Hloop.
    unfold advance. simpl. rewrite history_requests_length.
    apply outcome_market_raised with (ms := ms); auto. literal_lines.
Qed.

Lemma recorded_file m op e :
  recorded m op e -> exists id h, op = Dump (history_file id) h None.
Proof. intros H. inversion H; subst. eauto. Qed.

Lemma row_files_are_history_files rows op :
  Forall row_ok rows -> In op (map row_file rows) ->
  exists id h, op = Dump (history_file id) h None.
Proof.
  intros Hrows Hin. apply in_map_iff in Hin as (r & <- & Hr).
  rewrite Forall_forall in Hrows.
  apply (recorded_file (row_market r) _ (row_entry r)).
  apply Hrows. by apply list_elem_of_In.
Qed.

(** C2, as the code has it.  The start timestamp is computed anew for
    every market that reaches the history fetcher, from the clock reading
    taken at that moment: the k-th history request of a run carries
    [startTs] = (k-th reading of the clock) - 14 days.  Two markets of one
    run get the same [startTs] only if the clock showed the same second
    for both. *)
Theorem start_ts_read_per_market :
  exists toks,
    http_log (main w initial).2 =
    events_request
      :: imap (fun k tok => history_request tok (clock w k - 14 * 24 * 3600)) toks.
Proof.
  pose proof main_outcomes as H.
  destruct (main w initial) as [r st]; simpl in *.
  inversion H; subst; simpl; first [by exists [] | by exists toks].
Qed.

(** C3, as the code has it.  Every JSON file of a run is [event.json] or
    [summary.json], both written with [indent=2], or a history file,
    written without indentation. *)
Theorem written_files_encoding file obj indent :
  In (Dump file obj indent) (fs (main w initial).2) ->
  (file = event_file /\ indent = Some 2%nat)
  \/ (file = summary_file /\ indent = Some 2%nat)
  \/ (exists id, file = history_file id /\ indent = None).
Proof.
  pose proof main_outcomes as H.
  destruct (main w initial) as [r st]; simpl in *.
  inversion H as [ | | e ms toks rows lines _ _ _ Hrows _
                     | ms toks rows lines _ _ _ Hrows _ ]; subst; simpl.
  - intros [].
  - intros [].
  - intros [Hin | [Hin | Hin]]; [discriminate | |].
    + injection Hin as <- <- <-. by left.
    + destruct (row_files_are_history_files _ _ Hrows Hin) as (id & h & Heq).
      injection Heq as -> -> ->. right; right. eauto.
  - intros [Hin | [Hin | Hin]]; [discriminate | |].
    + injection Hin as <- <- <-. by left.
    + apply in_app_iff in Hin as [Hin | [Hin | []]].
      * destruct (row_files_are_history_files _ _ Hrows Hin) as (id & h & Heq).
        injection Heq as -> -> ->. right; right. eauto.
      * injection Hin as <- <- <-. right; left. done.
Qed.

(** C4.  When the metadata service answers with an empty array, the run
    ends normally after the line "No events found.": it issued the one
    request, and did nothing to the file system. *)
Theorem empty_array_writes_nothing :
  remote w 0%nat events_request = Response (mkResponse 200 (Some (JList []))) ->
  main w initial =
  (Ok tt,
   mkState [events_request] 0 []
     [[Lit "Fetching event: "; Fmt (JStr "portugal-presidential-election")];
      [Lit "No events found."]]).
Proof.
  intros Hempty. unfold main, get_event_data. run_monad.
  change (mkRequest ("https://gamma-api.polymarket.com/events?slug=" +:+
                     "portugal-presidential-election") [])
    with events_request.
  rewrite Hempty. reflexivity.
Qed.

(** C10.  No line of a run renders as "Empty event list.": the branch
    that prints it is never taken.  Whenever the resolver's result is falsy
    ([None], an empty array, an empty object, ...), the run ends at the
    emptiness check in the same way: after the resolver's own line, if any,
    it prints "No events found." and returns, with nothing written. *)
Theorem empty_list_branch_unreachable :
  Forall not_empty_list_message (stdout (main w initial).2)
  /\ (truthy (resolved w) = false ->
      exists lines,
        (length lines <= 1)%nat
        /\ main w initial =
           (Ok tt,
            mkState [events_request] 0 []
              ([Lit "Fetching event: "; Fmt (JStr "portugal-presidential-election")]
                 :: lines ++ [[Lit "No events found."]]))).
Proof.
  split.
  - pose proof main_outcomes as H.
    destruct (main w initial) as [r st]; simpl in *.
    inversion H; subst; simpl; assumption.
  - intros Hfalse. unfold main.
    erewrite bind_ok by reflexivity.
    destruct (get_event_data_returns "portugal-presidential-election"
                (mkState (http_log initial) (clock_reads initial) (fs initial)
                   (stdout initial ++
                      [[Lit "Fetching event: ";
                        Fmt (JStr "portugal-presidential-election")]])))
      as (lines0 & Heq & Hlen & _).
    erewrite bind_ok by apply Heq.
    change (mkRequest ("https://gamma-api.polymarket.com/events?slug=" +:+
                       "portugal-presidential-election") [])
      with events_request.
    change (payload (remote w _ events_request)) with (resolved w).
    rewrite Hfalse. exists lines0. split; [assumption | reflexivity].
Qed.

(** C7, as the code has it.  The resolver always returns, it never raises.
    It returns the decoded body exactly when the response has status 200
    and its body decodes as JSON, and then prints nothing.  On a status
    other than 200, on an exception of the transport, and on a 200 response
    whose body does not decode, it prints one line and returns [None]. *)
Theorem resolver_contract slug st :
  let request := mkRequest ("https://gamma-api.polymarket.com/events?slug=" +:+ slug) [] in
  let answer := remote w (length (http_log st)) request in
  exists v lines,
    get_event_data w slug st = (Ok v, add_lines lines (add_requests [request] st))
    /\ (forall r j,
          answer = Response r -> status_code r = 200 -> body r = Some j ->
          v = j /\ lines = [])
    /\ (forall r,
          answer = Response r -> status_code r = 200 -> body r = None ->
          v = JNull
          /\ lines = [[Lit "Exception fetching event: "; FmtExn JSONDecodeError]])
    /\ (forall r,
          answer = Response r -> status_code r <> 200 ->
          v = JNull
          /\ lines = [[Lit "Error fetching event: "; Fmt (JInt (status_code r))]])
    /\ (forall what,
          answer = Transport what ->
          v = JNull
          /\ lines = [[Lit "Exception fetching event: ";
                       FmtExn (RequestException what)]]).
Proof.
  intros request answer. subst request answer.
  unfold get_event_data, add_lines, add_requests. run_monad.
  destruct (remote w _ _) as [what | [code [j |]]]; simpl.
  - eexists _, [_]. split; [reflexivity |].
    repeat split; intros; simplify_eq; reflexivity.
  - destruct (Z.eqb_spec code 200) as [-> | Hne]; simpl.
    + eexists _, []. rewrite app_nil_r. split; [reflexivity |].
      repeat split; intros; simplify_eq/=; try reflexivity; congruence.
    + eexists _, [_]. split; [reflexivity |].
      repeat split; intros; simplify_eq/=; try reflexivity; congruence.
  - destruct (Z.eqb_spec code 200) as [-> | Hne]; simpl.
    + eexists _, [_]. split; [reflexivity |].
      repeat split; intros; simplify_eq/=; try reflexivity; congruence.
    + eexists _, [_]. split; [reflexivity |].
      repeat split; intros; simplify_eq/=; try reflexivity; congruence.
Qed.

(** *** One market at a time *)

Lemma add_lines_advance lines st : add_lines lines st = advance [] [] lines st.
Proof.
  destruct st. unfold add_lines, advance. simpl.
  by rewrite !app_nil_r, Nat.add_0_r.
Qed.

Lemma no_history_payload answer :
  no_history answer ->
  truthy (payload answer) = false \/ contains "history" (payload answer) = Ok false.
Proof.
  intros [[what ->] | [(r & -> & Hr) | (r & j & -> & Hcode & Hbody & Hj)]];
    unfold payload.
  - by left.
  - left. destruct (Z.eqb_spec (status_code r) 200); [| done].
    destruct Hr as [? | ->]; [congruence | done].
  - rewrite Hcode, Hbody. simpl. assumption.
Qed.

Ltac normalise_tokens H :=
  unfold process_market; run_monad; unfold token_list in H;
  destruct (lookup_key "clobTokenIds" _) as [[| | | | ?s | ?l | ] |];
  try discriminate H;
  try (destruct (decoder w _) as [[| | | | | ?l | ] |]; try discriminate H);
  simplify_eq; simpl.

(** A market without tokens is skipped. *)
Lemma process_market_no_token kvs stats st :
  token_list w (JDict kvs) = Some [] ->
  process_market w (JDict kvs) stats st =
  (Ok stats,
   add_lines [[Lit "Processing: "; Fmt (default (JStr "") (lookup_key "question" kvs))];
              [Lit "No clobTokenIds."]] st).
Proof.
  intros H. unfold add_lines. normalise_tokens H;
    unfold truthy; simpl; by rewrite <- app_assoc.
Qed.

Ltac fetch_history :=
  repeat match goal with
         | |- context [truthy (JList (?x :: ?l))] =>
             change (truthy (JList (x :: l))) with true
         end;
  unfold getitem_0; simpl;
  match goal with
  | |- context [get_price_history w ?t ?ts ?s0] =>
      let lines := fresh "lines" in
      destruct (get_price_history_returns t ts s0) as (lines & -> & _ & _);
      unfold add_lines, add_requests; simpl
  end.

(** A market with tokens whose history is not obtained is skipped, after
    one request. *)
Lemma process_market_no_history kvs tok rest stats st :
  token_list w (JDict kvs) = Some (tok :: rest) ->
  no_history
    (remote w (length (http_log st))
       (history_request tok (clock w (clock_reads st) - 14 * 24 * 3600))) ->
  exists lines,
    process_market w (JDict kvs) stats st =
    (Ok stats,
     advance [history_request tok (clock w (clock_reads st) - 14 * 24 * 3600)]
       [] lines st).
Proof.
  intros H Hno. apply no_history_payload in Hno.
  destruct st as [h0 c0 f0 o0]. simpl in Hno.
  normalise_tokens H; fetch_history.
  all: destruct Hno as [-> | Hno]; simpl;
    [| destruct (truthy _); simpl; [rewrite Hno; simpl |]].
  all: eexists; apply f_equal2; [reflexivity |];
    apply advance_intro; [list_delta | simpl; lia | list_delta | list_delta].
Qed.

(** A market with tokens whose history is obtained: its file is written
    and its entry appended if it has an identifier that makes a usable file
    name; without an identifier the turn raises [KeyError], and with an
    unusable one what [open] raises, after the fetch and before any
    writing. *)
Lemma process_market_history kvs tok rest hk points n stats st :
  token_list w (JDict kvs) = Some (tok :: rest) ->
  remote w (length (http_log st))
    (history_request tok (clock w (clock_reads st) - 14 * 24 * 3600))
  = Response (mkResponse 200 (Some (JDict hk))) ->
  lookup_key "history" hk = Some points ->
  len points = Ok n ->
  exists lines,
    process_market w (JDict kvs) stats st =
    match lookup_key "id" kvs with
    | Some id =>
        match unusable w id with
        | None =>
            (Ok (stats ++
                 [JDict [("id", id);
                         ("question", default (JStr "") (lookup_key "question" kvs));
                         ("token_id", tok);
                         ("points", JInt n);
                         ("volume", default (JInt 0) (lookup_key "volume" kvs))]]),
             advance
               [history_request tok (clock w (clock_reads st) - 14 * 24 * 3600)]
               [Dump (history_file id) (JDict hk) None] lines st)
        | Some e =>
            (Raise e,
             advance
               [history_request tok (clock w (clock_reads st) - 14 * 24 * 3600)]
               [] lines st)
        end
    | None =>
        (Raise (KeyError (JStr "id")),
         advance [history_request tok (clock w (clock_reads st) - 14 * 24 * 3600)]
           [] lines st)
    end.
Proof.
  intros H Hanswer Hhistory Hlen.
  assert (Htruthy : truthy (JDict hk) = true).
  { destruct hk; [discriminate Hhistory | reflexivity]. }
  destruct st as [h0 c0 f0 o0]. simpl in Hanswer.
  normalise_tokens H; fetch_history.
  all: rewrite Hanswer; unfold payload; simpl; rewrite Htruthy; simpl;
    unfold contains; rewrite Hhistory; simpl; rewrite Hlen; simpl.
  all: destruct (lookup_key "id" kvs) as [id |]; simpl;
    try destruct (unusable w id); simpl.
  all: eexists; apply f_equal2; [reflexivity |];
    apply advance_intro; [list_delta | simpl; lia | list_delta | list_delta].
Qed.

(** C5.  A market whose [clobTokenIds] is the text of the empty list, or
    a string that does not decode, has an empty token list.  Its turn of the
    loop prints two lines and nothing else: no request, no history file, no
    summary entry; the loop goes on with the markets that follow, from the
    same summary.  ([decoder w "[]"] is what [json.loads] gives for the
    two characters of the empty list.) *)
Theorem empty_token_list_skips_market kvs s ms stats st :
  decoder w "[]" = Some (JList []) ->
  lookup_key "clobTokenIds" kvs = Some (JStr s) ->
  s = "[]" \/ decoder w s = None ->
  token_list w (JDict kvs) = Some []
  /\ for_each (process_market w) (JDict kvs :: ms) stats st =
     for_each (process_market w) ms stats
       (add_lines
          [[Lit "Processing: "; Fmt (default (JStr "") (lookup_key "question" kvs))];
           [Lit "No clobTokenIds."]] st).
Proof.
  intros Hempty Hlookup Hs.
  assert (Htokens : token_list w (JDict kvs) = Some []).
  { unfold token_list. rewrite Hlookup.
    destruct Hs as [-> | ->]; [by rewrite Hempty | done]. }
  split; [assumption |].
  simpl. erewrite bind_ok by (by apply process_market_no_token). reflexivity.
Qed.

(** C9, as the code has it.  For a market object in the loop:
    - if it has a first token and its history is obtained, but it has no
      [id], the loop ends at this market with an uncaught [KeyError] for
      ["id"], raised when the name of the history file is built: nothing is
      written for the market, and the markets after it are not processed;
    - if it has a first token and its history is not obtained, for one of
      the reasons the code guards against (transport exception, status
      other than 200, body that does not decode, payload that is falsy or
      has no [history]), the market is skipped and the loop goes on;
    - if its token list is empty (absent, empty, or a string that does not
      decode), the market is skipped and the loop goes on. *)
Theorem missing_id_halts_the_run kvs ms stats st :
  (forall tok rest hk points n,
      token_list w (JDict kvs) = Some (tok :: rest) ->
      lookup_key "id" kvs = None ->
      remote w (length (http_log st))
        (history_request tok (clock w (clock_reads st) - 14 * 24 * 3600))
      = Response (mkResponse 200 (Some (JDict hk))) ->
      lookup_key "history" hk = Some points ->
      len points = Ok n ->
      exists lines,
        for_each (process_market w) (JDict kvs :: ms) stats st =
        (Raise (KeyError (JStr "id")),
         advance [history_request tok (clock w (clock_reads st) - 14 * 24 * 3600)]
           [] lines st))
  /\ (forall tok rest,
        token_list w (JDict kvs) = Some (tok :: rest) ->
        no_history
          (remote w (length (http_log st))
             (history_request tok (clock w (clock_reads st) - 14 * 24 * 3600))) ->
        exists lines,
          for_each (process_market w) (JDict kvs :: ms) stats st =
          for_each (process_market w) ms stats
            (advance
               [history_request tok (clock w (clock_reads st) - 14 * 24 * 3600)]
               [] lines st))
  /\ (token_list w (JDict kvs) = Some [] ->
      exists lines,
        for_each (process_market w) (JDict kvs :: ms) stats st =
        for_each (process_market w) ms stats (advance [] [] lines st)).
Proof.
  split; [| split].
  - intros tok rest hk points n Htokens Hid Hanswer Hhistory Hlen.
    destruct (process_market_history kvs tok rest hk points n stats st
                Htokens Hanswer Hhistory Hlen) as [lines Hturn].
    rewrite Hid in Hturn. exists lines.
    simpl. by erewrite bind_raise by apply Hturn.
  - intros tok rest Htokens Hno.
    destruct (process_market_no_history kvs tok rest stats st Htokens Hno)
      as [lines Hturn].
    exists lines. simpl. by erewrite bind_ok by apply Hturn.
  - intros Htokens. eexists. simpl.
    erewrite bind_ok by (by apply process_market_no_token).
    by rewrite add_lines_advance.
Qed.

(** *** Well-formed events *)

Lemma advance_log_length reqs ops lines st :
  (1 <= length (http_log st))%nat ->
  (1 <= length (http_log (advance reqs ops lines st)))%nat.
Proof. simpl. rewrite length_app. lia. Qed.

Lemma first_tokens_cons m ms :
  first_tokens w (m :: ms) =
  match token_list w m with
  | Some (tok :: _) => tok :: first_tokens w ms
  | _ => first_tokens w ms
  end.
Proof.
  unfold first_tokens. simpl.
  destruct (token_list w m) as [[| tok rest] |]; reflexivity.
Qed.



(** *** The history fetcher *)

(** X1.  The history fetcher always returns, it never raises.  It sends
    one request, to the time-series service, with the token, the start
    timestamp and a fidelity of 1.  It returns the decoded body exactly when
    the response has status 200 and its body decodes, and then prints
    nothing; in every other case it prints one line and returns [None].  It
    neither reads the clock nor touches the file system. *)
Theorem history_fetcher_contract market_id start_ts st :
  let request :=
    mkRequest "https://clob.polymarket.com/prices-history"
      [("market", market_id); ("startTs", JInt start_ts); ("fidelity", JInt 1)] in
  let answer := remote w (length (http_log st)) request in
  exists v lines,
    get_price_history w market_id start_ts st =
      (Ok v,
       mkState (http_log st ++ [request]) (clock_reads st) (fs st)
         (stdout st ++ lines))
    /\ (forall r j,
          answer = Response r -> status_code r = 200 -> body r = Some j ->
          v = j /\ lines = [])
    /\ (forall r,
          answer = Response r -> status_code r = 200 -> body r = None ->
          v = JNull
          /\ lines = [[Lit "Exception fetching history: "; FmtExn JSONDecodeError]])
    /\ (forall r,
          answer = Response r -> status_code r <> 200 ->
          v = JNull
          /\ lines = [[Lit "Error fetching history for "; Fmt market_id; Lit ": ";
                       Fmt (JInt (status_code r))]])
    /\ (forall what,
          answer = Transport what ->
          v = JNull
          /\ lines = [[Lit "Exception fetching history: ";
                       FmtExn (RequestException what)]]).
Proof.
  intros request answer. subst request answer.
  unfold get_price_history. run_monad.
  destruct (remote w _ _) as [what | [code [j |]]]; simpl.
  - eexists _, [_]. split; [reflexivity |].
    repeat split; intros; simplify_eq; reflexivity.
  - destruct (Z.eqb_spec code 200) as [-> | Hne]; simpl.
    + eexists _, []. rewrite app_nil_r. split; [reflexivity |].
      repeat split; intros; simplify_eq/=; try reflexivity; congruence.
    + eexists _, [_]. split; [reflexivity |].
      repeat split; intros; simplify_eq/=; try reflexivity; congruence.
  - destruct (Z.eqb_spec code 200) as [-> | Hne]; simpl.
    + eexists _, [_]. split; [reflexivity |].
      repeat split; intros; simplify_eq/=; try reflexivity; congruence.
    + eexists _, [_]. split; [reflexivity |].
      repeat split; intros; simplify_eq/=; try reflexivity; congruence.
Qed.

(** *** The run up to the loop *)

Lemma chars_length s : length (chars s) = String.length s.
Proof. induction s as [| c s IH]; simpl; [reflexivity | by rewrite IH]. Qed.

Lemma iter_len v ms : iter v = Ok ms -> len v = Ok (Z.of_nat (length ms)).
Proof.
  destruct v; unfold iter, len; intros H; simplify_eq; try reflexivity.
  - by rewrite chars_length.
  - by rewrite length_map.
Qed.

Lemma len_nonneg v n : len v = Ok n -> 0 <= n.
Proof. destruct v; unfold len; intros H; simplify_eq; lia. Qed.

(** When the resolver's result passes the emptiness check and its event
    has markets to go through, [main] is the loop over these markets
    followed by the writing of the summary, from [loop_start]. *)
Lemma main_runs_the_loop ms :
  truthy (resolved w) = true ->
  event_markets (resolved_event (resolved w)) = Ok ms ->
  exists lines,
    main w initial =
    bind (for_each (process_market w) ms [])
      (fun stats => json_dump w summary_file (JList stats) (Some 2%nat))
      (loop_start w lines).
Proof.
  intros Htruthy Hmarkets. unfold main.
  erewrite bind_ok by reflexivity.
  destruct (get_event_data_returns "portugal-presidential-election"
              (mkState (http_log initial) (clock_reads initial) (fs initial)
                 (stdout initial ++
                    [[Lit "Fetching event: ";
                      Fmt (JStr "portugal-presidential-election")]])))
    as (lines0 & Heq & _ & _).
  erewrite bind_ok by apply Heq.
  change (mkRequest ("https://gamma-api.polymarket.com/events?slug=" +:+
                     "portugal-presidential-election") [])
    with events_request.
  change (payload (remote w _ events_request)) with (resolved w).
  rewrite Htruthy. change (negb true) with false. cbv beta iota.
  erewrite bind_ok by (by apply choose_event).
  unfold event_markets in Hmarkets.
  destruct (get (resolved_event (resolved w)) "markets" (JList []))
    as [markets | e] eqn:Hget; [| discriminate Hmarkets].
  erewrite bind_ok by (unfold lift; rewrite ?Hget; reflexivity).
  cbv beta.
  erewrite bind_ok by (unfold lift; rewrite (iter_len _ _ Hmarkets); reflexivity).
  cbv beta.
  do 3 (erewrite bind_ok by reflexivity; cbv beta).
  erewrite bind_ok by (unfold lift; rewrite Hmarkets; reflexivity).
  eexists. reflexivity.
Qed.

(** When the resolver's result is falsy or its event has no markets to go
    through, the run ends after the one request, with nothing written and
    the clock not read. *)
Lemma main_without_loop :
  truthy (resolved w) = false
  \/ (exists e, event_markets (resolved_event (resolved w)) = Raise e) ->
  http_log (main w initial).2 = [events_request]
  /\ clock_reads (main w initial).2 = 0%nat
  /\ fs (main w initial).2 = [].
Proof.
  intros Hno. pose proof main_outcomes as H.
  destruct (main w initial) as [r st]; simpl in *.
  inversion H as [ lines Hfalse _ | e lines _ Hraise _
                 | e ms toks rows lines Htrue Hms _ _ _
                 | ms toks rows lines Htrue Hms _ _ _ ]; subst; simpl; auto.
  - destruct Hno as [? | [e' ?]]; congruence.
  - destruct Hno as [? | [e' ?]]; congruence.
Qed.

(** *** Requests and files of one market *)

Ltac explore_turn :=
  repeat match goal with
         | |- context [negb (truthy ?X)] => destruct (truthy X) eqn:?; simpl
         | |- context [match getitem_0 ?X with _ => _ end] =>
             destruct (getitem_0 X) eqn:?; simpl
         | |- context [get_price_history w ?t ?ts ?s0] =>
             let lines := fresh "lines" in
             destruct (get_price_history_returns t ts s0) as (lines & -> & ? & ?);
             unfold add_lines, add_requests; simpl
         | |- context [if truthy ?X then _ else _] =>
             destruct (truthy X) eqn:?; simpl
         | |- context [match contains ?k ?X with _ => _ end] =>
             destruct (contains k X) as [[|] |] eqn:?; simpl
         | |- context [match getitem ?X ?k with _ => _ end] =>
             destruct (getitem X k) eqn:?; simpl
         | |- context [match len ?X with _ => _ end] =>
             destruct (len X) eqn:?; simpl
         | |- context [match lookup_key "id" ?X with _ => _ end] =>
             destruct (lookup_key "id" X) eqn:?; simpl
         | |- context [match unusable w ?X with _ => _ end] =>
             destruct (unusable w X) eqn:?; simpl
         end.

Ltac close_effect :=
  eexists _, _, _, _;
  split;
  [ apply f_equal2; [reflexivity |];
    apply advance_intro; [list_delta | simpl; lia | list_delta | list_delta]
  | first
      [ left; split; reflexivity
      | right; eexists; split; [reflexivity |];
        first [ left; reflexivity
              | right; eexists; split; [reflexivity | assumption] ] ] ].

(** One turn of the loop sends no request and writes nothing, or it sends
    one request; in that case it writes nothing, or it writes the truthy
    payload of the answer to that very request into one history file. *)
Lemma process_market_effect market stats st :
  exists r reqs ops lines,
    process_market w market stats st = (r, advance reqs ops lines st)
    /\ ((reqs = [] /\ ops = [])
        \/ exists tok,
             reqs = [history_request tok (clock w (clock_reads st) - 14 * 24 * 3600)]
             /\ (ops = []
                 \/ exists id,
                      ops =
                        [Dump (history_file id)
                           (payload
                              (remote w (length (http_log st))
                                 (history_request tok
                                    (clock w (clock_reads st) - 14 * 24 * 3600))))
                           None]
                      /\ truthy
                           (payload
                              (remote w (length (http_log st))
                                 (history_request tok
                                    (clock w (clock_reads st) - 14 * 24 * 3600))))
                         = true)).
Proof.
  unfold process_market. destruct st as [h0 c0 f0 o0].
  destruct market as [| b | z | f | s | l | kvs];
    try (run_monad; close_effect).
  run_monad.
  destruct (lookup_key "clobTokenIds" kvs) as [[| b | z | f | s | l | tk] |];
    try destruct (decoder w s) as [c |]; simpl.
  all: explore_turn.
  all: close_effect.
Qed.

Lemma payload_truthy answer :
  truthy (payload answer) = true ->
  answer = Response (mkResponse 200 (Some (payload answer))).
Proof.
  destruct answer as [what | [code [j |]]]; unfold payload; simpl.
  - discriminate.
  - destruct (Z.eqb_spec code 200) as [-> | ?]; [reflexivity | discriminate].
  - destruct (Z.eqb code 200); discriminate.
Qed.

(** The loop sends at most one request for each market, and every file it
    writes holds the answer to one of the requests of the run. *)
Lemma for_each_effect ms : forall stats st,
  exists r reqs ops lines,
    for_each (process_market w) ms stats st = (r, advance reqs ops lines st)
    /\ (length reqs <= length ms)%nat
    /\ Forall (holds_answer w (http_log st ++ reqs)) ops.
Proof.
  induction ms as [| m ms IH]; intros stats st.
  - exists (Ok stats), [], [], []. simpl. unfold ret.
    rewrite <- add_lines_advance. unfold add_lines. destruct st; simpl.
    rewrite app_nil_r. repeat split; auto.
  - destruct (process_market_effect m stats st)
      as (r1 & reqs1 & ops1 & lines1 & Heq & Heffect).
    assert (Hlen1 : (length reqs1 <= 1)%nat).
    { destruct Heffect as [[-> _] | (tok & -> & _)]; simpl; lia. }
    assert (Hops1 : forall more,
               Forall (holds_answer w ((http_log st ++ reqs1) ++ more)) ops1).
    { intros more.
      destruct Heffect as [[_ ->] | (tok & -> & [-> | (id & -> & Htruthy)])];
        try apply Forall_nil_2.
      apply Forall_cons_2; [| apply Forall_nil_2].
      apply payload_truthy in Htruthy.
      eexists id, (length (http_log st)), tok, _, _.
      split; [| split; [exact Htruthy | reflexivity]].
      rewrite <- app_assoc. rewrite lookup_app_r by lia.
      by rewrite Nat.sub_diag. }
    simpl. destruct r1 as [stats1 | e].
    + erewrite bind_ok by apply Heq.
      destruct (IH stats1 (advance reqs1 ops1 lines1 st))
        as (r & reqs & ops & lines & Heq2 & Hlen & Hops).
      exists r, (reqs1 ++ reqs), (ops1 ++ ops), (lines1 ++ lines).
      rewrite Heq2, advance_advance. split; [reflexivity |].
      split; [rewrite length_app; simpl; lia |].
      rewrite app_assoc. apply Forall_app_2; [apply Hops1 | exact Hops].
    + erewrite bind_raise by apply Heq.
      exists (Raise e), reqs1, ops1, lines1. split; [reflexivity |].
      split; [simpl; lia |].
      specialize (Hops1 []). by rewrite app_nil_r in Hops1.
Qed.

(** The requests and the files of a run that reaches the loop. *)
Lemma main_effect ms :
  truthy (resolved w) = true ->
  event_markets (resolved_event (resolved w)) = Ok ms ->
  exists reqs ops tail,
    (length reqs <= length ms)%nat
    /\ Forall (holds_answer w (events_request :: reqs)) ops
    /\ http_log (main w initial).2 = events_request :: reqs
    /\ fs (main w initial).2 =
       [Makedirs "public/data";
        Dump event_file (resolved_event (resolved w)) (Some 2%nat)]
       ++ ops ++ tail
    /\ (tail = [] \/ exists stats, tail = [Dump summary_file stats (Some 2%nat)]).
Proof.
  intros Htruthy Hmarkets.
  destruct (main_runs_the_loop ms Htruthy Hmarkets) as [lines0 ->].
  destruct (for_each_effect ms [] (loop_start w lines0))
    as (r & reqs & ops & lines & Heq & Hlen & Hops).
  exists reqs, ops. destruct r as [stats | e].
  - exists [Dump summary_file (JList stats) (Some 2%nat)].
    erewrite bind_ok by apply Heq. unfold json_dump, advance. simpl.
    rewrite <- ?app_assoc. repeat split; eauto.
  - exists []. erewrite bind_raise by apply Heq. unfold advance. simpl.
    rewrite ?app_nil_r. repeat split; eauto.
Qed.

(** X2.  A run sends the request for the event first, and then at most one
    request for each market of the event; when the event is not resolved or
    has no markets to go through, the request for the event is the only
    one. *)
Theorem at_most_one_request_per_market :
  (length (http_log (main w initial).2) <=
   1 + match event_markets (resolved_event (resolved w)) with
       | Ok ms => if truthy (resolved w) then length ms else 0
       | Raise _ => 0
       end)%nat
  /\ exists reqs, http_log (main w initial).2 = events_request :: reqs.
Proof.
  destruct (truthy (resolved w)) eqn:Htruthy.
  - destruct (event_markets (resolved_event (resolved w))) as [ms | e] eqn:Hms.
    + destruct (main_effect ms Htruthy Hms)
        as (reqs & ops & tail & Hlen & _ & -> & _).
      simpl. split; [lia | eauto].
    + destruct main_without_loop as (-> & _); [right; eauto |].
      simpl. split; [lia | eauto].
  - destruct main_without_loop as (-> & _); [by left |].
    simpl. split; [destruct (event_markets _); lia | eauto].
Qed.

(** X3.  The clock is read once for every history request of a run, and
    at no other time: at the end of a run the number of readings is the
    number of requests sent after the request for the event. *)
Theorem clock_read_once_per_history_request :
  S (clock_reads (main w initial).2) = length (http_log (main w initial).2).
Proof.
  pose proof main_outcomes as H.
  destruct (main w initial) as [r st]; simpl in *.
  inversion H; subst; simpl; by rewrite ?history_requests_length.
Qed.

(** X4.  Every file a run writes without indentation is a history file,
    and it holds, as decoded, the body of the answer with status 200 that
    the time-series service gave to one of the requests of that run. *)
Theorem history_files_hold_answers file obj :
  In (Dump file obj None) (fs (main w initial).2) ->
  holds_answer w (http_log (main w initial).2) (Dump file obj None).
Proof.
  destruct (truthy (resolved w)) eqn:Htruthy.
  - destruct (event_markets (resolved_event (resolved w))) as [ms | e] eqn:Hms.
    + destruct (main_effect ms Htruthy Hms)
        as (reqs & ops & tail & _ & Hops & -> & -> & Htail).
      simpl. intros [Hin | [Hin | Hin]]; [discriminate | discriminate |].
      apply in_app_iff in Hin as [Hin | Hin].
      * rewrite Forall_forall in Hops. apply Hops. by apply list_elem_of_In.
      * destruct Htail as [-> | [stats ->]]; [destruct Hin |].
        destruct Hin as [Hin | []]. discriminate.
    + destruct main_without_loop as (_ & _ & ->); [right; eauto |].
      intros [].
  - destruct main_without_loop as (_ & _ & ->); [by left |].
    intros [].
Qed.

(** *** The summary and the event *)

Lemma recorded_shape m op e : recorded m op e -> entry_shape e.
Proof.
  intros H. inversion H as [kvs id h points n tok _ _ Hlen]; subst.
  eexists _, _, _, _, _. split; [reflexivity |]. by eapply len_nonneg.
Qed.

(** X5.  Every entry of a written summary is an object with the five keys
    [id], [question], [token_id], [points] and [volume], in that order, and
    its [points] is an integer that is not negative. *)
Theorem summary_entries_shape stats indent :
  In (Dump summary_file (JList stats) indent) (fs (main w initial).2) ->
  Forall entry_shape stats.
Proof.
  pose proof main_outcomes as H.
  destruct (main w initial) as [r st]; simpl in *.
  inversion H as [ | | e ms toks rows lines _ _ _ Hrows _
                     | ms toks rows lines _ _ _ Hrows _ ]; subst; simpl.
  - intros [].
  - intros [].
  - intros [Hin | [Hin | Hin]]; [discriminate | discriminate |].
    destruct (row_files_are_history_files _ _ Hrows Hin) as (id & h & Heq).
    discriminate.
  - intros [Hin | [Hin | Hin]]; [discriminate | discriminate |].
    apply in_app_iff in Hin as [Hin | [Hin | []]].
    + destruct (row_files_are_history_files _ _ Hrows Hin) as (id & h & Heq).
      discriminate.
    + injection Hin as <- _. apply Forall_map.
      eapply Forall_impl; [exact Hrows |].
      intros row Hrow. by eapply recorded_shape.
Qed.

(** X6.  An event that is resolved and has no market at all (no [markets]
    attribute, or an empty one) gives a run that ends normally without any
    history request: it writes [event.json] and a [summary.json] that holds
    the empty array. *)
Theorem no_market_gives_empty_summary :
  truthy (resolved w) = true ->
  event_markets (resolved_event (resolved w)) = Ok [] ->
  (main w initial).1 = Ok tt
  /\ http_log (main w initial).2 = [events_request]
  /\ clock_reads (main w initial).2 = 0%nat
  /\ fs (main w initial).2 =
     [Makedirs "public/data";
      Dump event_file (resolved_event (resolved w)) (Some 2%nat);
      Dump summary_file (JList []) (Some 2%nat)].
Proof.
  intros Htruthy Hmarkets.
  destruct (main_runs_the_loop [] Htruthy Hmarkets) as [lines ->].
  repeat split; reflexivity.
Qed.

(** X7.  When the first thing the loop meets is not an object (an element
    of [markets] that is a string, a number, [None]..., or the first key of
    a [markets] that is itself an object), the run halts there with an
    uncaught [AttributeError]: [event.json] is written, no request is sent
    for any market and [summary.json] is not written. *)
Theorem non_object_market_halts m ms :
  truthy (resolved w) = true ->
  event_markets (resolved_event (resolved w)) = Ok (m :: ms) ->
  is_dict m = false ->
  (main w initial).1 = Raise AttributeError
  /\ http_log (main w initial).2 = [events_request]
  /\ fs (main w initial).2 =
     [Makedirs "public/data";
      Dump event_file (resolved_event (resolved w)) (Some 2%nat)].
Proof.
  intros Htruthy Hmarkets Hm.
  destruct (main_runs_the_loop (m :: ms) Htruthy Hmarkets) as [lines ->].
  destruct m; try discriminate Hm; repeat split; reflexivity.
Qed.

(** X8.  When the resolver's result is not empty but gives no markets to
    go through, the run halts before the output directory is created:
    with an [AttributeError] when the event is not an object, with a
    [TypeError] when its [markets] has no length.  Nothing is written. *)
Theorem unusable_event_halts_before_writing e :
  truthy (resolved w) = true ->
  event_markets (resolved_event (resolved w)) = Raise e ->
  (main w initial).1 = Raise e
  /\ e = (if is_dict (resolved_event (resolved w)) then TypeError
          else AttributeError)
  /\ http_log (main w initial).2 = [events_request]
  /\ fs (main w initial).2 = [].
Proof.
  intros Htruthy Hmarkets.
  assert (He : e = (if is_dict (resolved_event (resolved w)) then TypeError
                    else AttributeError)).
  { unfold event_markets in Hmarkets.
    destruct (resolved_event (resolved w)) as [| | | | | | ekvs];
      simpl in *; try congruence.
    destruct (lookup_key "markets" ekvs) as [[] |];
      unfold iter in Hmarkets; congruence. }
  pose proof main_outcomes as H.
  destruct (main w initial) as [r st]; simpl in *.
  inversion H as [ lines Hfalse _ | e' lines _ Hraise _
                 | e' ms toks rows lines _ Hms _ _ _
                 | ms toks rows lines _ Hms _ _ _ ]; subst; simpl;
    try congruence.
  repeat split; congruence.
Qed.

(** *** The token list of a market *)

Ltac to_tokens :=
  unfold process_market, normalised_tokens in *; run_monad;
  destruct (lookup_key "clobTokenIds" _) as [[| | | | ?s | | ] |];
  try destruct (decoder w _);
  simpl in *.

(** X9.  A market object whose token value is falsy after normalisation
    (absent, an empty list, [None], [false], zero, an empty string or
    object, or a string that decodes to one of these or does not decode)
    is skipped: two lines are printed, no request is sent, nothing is
    written and the summary is unchanged. *)
Theorem falsy_tokens_skip_market kvs stats st :
  truthy (normalised_tokens w kvs) = false ->
  process_market w (JDict kvs) stats st =
  (Ok stats,
   add_lines [[Lit "Processing: "; Fmt (default (JStr "") (lookup_key "question" kvs))];
              [Lit "No clobTokenIds."]] st).
Proof.
  intros Hfalsy. unfold add_lines. destruct st as [h0 c0 f0 o0].
  to_tokens; try discriminate Hfalsy; rewrite ?Hfalsy; simpl;
    by rewrite <- app_assoc.
Qed.

(** X10.  A market object whose token value is truthy but has no element
    0 (a number or [true], or a non-empty object) halts the run with an
    uncaught [TypeError], or [KeyError] for an object, after the line
    "Processing: ..." and before the clock is read or any request sent. *)
Theorem unusable_tokens_halt kvs stats st e :
  truthy (normalised_tokens w kvs) = true ->
  getitem_0 (normalised_tokens w kvs) = Raise e ->
  process_market w (JDict kvs) stats st =
    (Raise e,
     add_lines [[Lit "Processing: "; Fmt (default (JStr "") (lookup_key "question" kvs))]]
       st)
  /\ (e = TypeError \/ e = KeyError (JInt 0)).
Proof.
  intros Htruthy Hitem. split.
  - unfold add_lines. destruct st as [h0 c0 f0 o0].
    to_tokens; try discriminate Htruthy;
      unfold getitem_0 in *; simpl in *; simplify_eq;
      rewrite ?Htruthy; simpl; rewrite ?Hitem; reflexivity.
  - destruct (normalised_tokens w kvs) as [| | | | s | [| x l] | tk];
      unfold getitem_0 in Hitem; simplify_eq; auto; try discriminate Htruthy.
    destruct s; [discriminate Htruthy | discriminate Hitem].
Qed.

(** X11.  A market object whose token value is truthy and has an element
    0 (the first element of a list, or the first character of a string that
    decoded to a string) leads to exactly one request, for that element,
    with the start timestamp read from the clock at that moment. *)
Theorem first_token_is_queried kvs stats st tok :
  truthy (normalised_tokens w kvs) = true ->
  getitem_0 (normalised_tokens w kvs) = Ok tok ->
  exists r ops lines,
    process_market w (JDict kvs) stats st =
    (r,
     advance [history_request tok (clock w (clock_reads st) - 14 * 24 * 3600)]
       ops lines st).
Proof.
  intros Htruthy Hitem. destruct st as [h0 c0 f0 o0].
  to_tokens; try discriminate Htruthy;
    unfold getitem_0 in *; simpl in *; simplify_eq;
    rewrite ?Htruthy; simpl; rewrite ?Hitem; simpl.
  all: explore_turn.
  all: eexists _, _, _; apply f_equal2; [reflexivity |];
    apply advance_intro; [list_delta | simpl; lia | list_delta | list_delta].
Qed.

(** X12.  When the history fetcher hands back a truthy value that is not
    an object with a sized [history] (a number or [true]; an array or a
    string that contains "history"; an object whose [history] has no length),
    the run halts with an uncaught [TypeError] after the request, and
    nothing is written for the market. *)
Theorem unusable_history_halts kvs stats st tok e :
  truthy (normalised_tokens w kvs) = true ->
  getitem_0 (normalised_tokens w kvs) = Ok tok ->
  let request := history_request tok (clock w (clock_reads st) - 14 * 24 * 3600) in
  let history := payload (remote w (length (http_log st)) request) in
  truthy history = true ->
  contains "history" history = Raise e
  \/ (contains "history" history = Ok true
      /\ (getitem history "history" = Raise e
          \/ exists points,
               getitem history "history" = Ok points /\ len points = Raise e)) ->
  e = TypeError
  /\ exists lines,
       process_market w (JDict kvs) stats st =
       (Raise e, advance [request] [] lines st).
Proof.
  intros Htruthy Hitem request history Hhistory Hbad.
  subst request history. split.
  - destruct (payload _) as [| | | | s | l | hk];
      unfold contains, getitem, len in Hbad;
      destruct Hbad as [H | [H [H' | (points & H' & H'')]]];
      simplify_eq; try reflexivity.
    + destruct (lookup_key "history" hk); discriminate.
    + destruct (lookup_key "history" hk); [| discriminate].
      simplify_eq. destruct points; simplify_eq; reflexivity.
  - destruct st as [h0 c0 f0 o0]. simpl in *.
    to_tokens; try discriminate Htruthy;
      unfold getitem_0 in *; simpl in *; simplify_eq;
      rewrite ?Htruthy; simpl; rewrite ?Hitem; simpl.
    all: match goal with
         | |- context [get_price_history w ?t ?ts ?s0] =>
             let lines := fresh "lines" in
             destruct (get_price_history_returns t ts s0) as (lines & -> & _ & _);
             unfold add_lines, add_requests; simpl
         end.
    all: rewrite Hhistory; simpl.
    all: destruct Hbad as [-> | [-> [-> | (points & -> & ->)]]]; simpl.
    all: eexists; apply f_equal2; [reflexivity |];
      apply advance_intro; [list_delta | simpl; lia | list_delta | list_delta].
Qed.

(** *** A time-series service that gives no history *)

Lemma for_each_no_history ms :
  Forall (has_token_list w) ms ->
  (forall k tok ts, no_history (remote w (S k) (history_request tok ts))) ->
  forall stats st,
    (1 <= length (http_log st))%nat ->
    exists lines,
      for_each (process_market w) ms stats st =
      (Ok stats,
       advance (history_requests w (clock_reads st) (first_tokens w ms)) []
         lines st).
Proof.
  intros Hms Hno. induction Hms as [| m ms [Hdict [toks Htoks]] _ IH];
    intros stats st Hlog.
  - exists []. simpl. unfold ret. rewrite <- add_lines_advance.
    unfold add_lines. destruct st; simpl. by rewrite app_nil_r.
  - destruct m as [| | | | | | kvs]; try discriminate Hdict.
    simpl for_each. rewrite first_tokens_cons, Htoks.
    destruct toks as [| tok rest].
    + erewrite bind_ok by (by apply process_market_no_token).
      rewrite add_lines_advance.
      match goal with
      | |- context [advance [] [] ?lines1 st] =>
          destruct (IH stats (advance [] [] lines1 st)
                      (advance_log_length _ _ _ _ Hlog))
            as [lines Heq];
          exists (lines1 ++ lines)
      end.
      rewrite Heq, advance_advance. simpl. by rewrite Nat.add_0_r.
    + destruct (length (http_log st)) as [| k] eqn:Hk; [lia |].
      pose proof (Hno k tok (clock w (clock_reads st) - 14 * 24 * 3600)) as Hn.
      rewrite <- Hk in Hn.
      destruct (process_market_no_history kvs tok rest stats st Htoks Hn)
        as [lines1 Hturn].
      erewrite bind_ok by apply Hturn.
      match type of Hturn with
      | _ = (_, advance ?r [] _ _) =>
          destruct (IH stats (advance r [] lines1 st)) as [lines Heq];
          [ apply advance_log_length; lia | ];
          exists (lines1 ++ lines)
      end.
      rewrite Heq, advance_advance. simpl.
      by rewrite history_requests_cons.
Qed.

(** X13.  When the time-series service gives no history for any request,
    a resolved event whose markets are objects with a token list still gives
    a run that ends normally: it sends one request for each market that has
    a token, for its first token and in the order of the markets, writes no
    history file, and writes [event.json] and a [summary.json] that holds
    the empty array. *)
Theorem no_history_gives_empty_summary ms :
  truthy (resolved w) = true ->
  event_markets (resolved_event (resolved w)) = Ok ms ->
  Forall (has_token_list w) ms ->
  (forall k tok ts, no_history (remote w (S k) (history_request tok ts))) ->
  (main w initial).1 = Ok tt
  /\ http_log (main w initial).2 =
     events_request
       :: imap (fun k tok => history_request tok (clock w k - 14 * 24 * 3600))
            (first_tokens w ms)
  /\ fs (main w initial).2 =
     [Makedirs "public/data";
      Dump event_file (resolved_event (resolved w)) (Some 2%nat);
      Dump summary_file (JList []) (Some 2%nat)].
Proof.
  intros Htruthy Hmarkets Hms Hno.
  destruct (main_runs_the_loop ms Htruthy Hmarkets) as [lines0 ->].
  destruct (for_each_no_history ms Hms Hno [] (loop_start w lines0))
    as [lines Heq]; [simpl; lia |].
  erewrite bind_ok by apply Heq.
  repeat split; reflexivity.
Qed.

(** *** The markets whose retrieval succeeds *)

(** The turn of a market object, with its question and its token value
    named. *)
Lemma process_market_dict kvs stats st :
  process_market w (JDict kvs) stats st =
  (let market := JDict kvs in
   let question := default (JStr "") (lookup_key "question" kvs) in
   let clob_token_ids := normalised_tokens w kvs in
   print [Lit "Processing: "; Fmt question] >>
   if negb (truthy clob_token_ids) then
     print [Lit "No clobTokenIds."] >>
     ret stats
   else
     let* yes_token_id := lift (getitem_0 clob_token_ids) in
     let* now := time_time w in
     let start_ts := now - 14 * 24 * 3600 in
     let* history := get_price_history w yes_token_id start_ts in
     let* found :=
       if truthy history then lift (contains "history" history) else ret false in
     if found then
       let* points := lift (getitem history "history") in
       let* n := lift (len points) in
       print [Lit "  Fetched "; Fmt (JInt n); Lit " points."] >>
       let* id := lift (getitem market "id") in
       json_dump w (history_file id) history None >>
       let* id := lift (getitem market "id") in
       let* n := lift (len points) in
       let* volume := lift (get market "volume" (JInt 0)) in
       ret (stats ++ [JDict [("id", id); ("question", question);
                             ("token_id", yes_token_id); ("points", JInt n);
                             ("volume", volume)]])
     else
       print [Lit "  No history."] >>
       ret stats) st.
Proof.
  unfold process_market, normalised_tokens, json_loads, get.
  destruct (lookup_key "question" kvs), (lookup_key "volume" kvs),
    (lookup_key "clobTokenIds" kvs) as [[| | | | s | |] |];
    cbv beta iota zeta delta [bind lift ret print];
    try destruct (decoder w s);
    reflexivity.
Qed.

(** The turn of a market that does not raise: a market with no token to
    query leaves the summary and the files as they are, without a request;
    a market with a token to query costs one request and one reading of the
    clock, and it is recorded, with the history obtained, exactly when the
    retrieval succeeded. *)
Lemma process_market_retrieval m stats st stats1 st1 k :
  process_market w m stats st = (Ok stats1, st1) ->
  length (http_log st) = S k ->
  clock_reads st = k ->
  match queried_token w m with
  | None =>
      stats1 = stats /\ fs st1 = fs st
      /\ length (http_log st1) = S k /\ clock_reads st1 = k
  | Some tok =>
      let history :=
        payload (remote w (S k) (history_request tok (clock w k - 14 * 24 * 3600))) in
      length (http_log st1) = S (S k) /\ clock_reads st1 = S k
      /\ if retrieved history then
           exists x,
             row_of (mkRetrieval m tok history) x
             /\ row_ok x
             /\ stats1 = stats ++ [row_entry x]
             /\ fs st1 = fs st ++ [row_file x]
         else stats1 = stats /\ fs st1 = fs st
  end.
Proof.
  intros Hrun Hlog Hclock.
  destruct m as [| | | | | | kvs];
    try (unfold process_market in Hrun; run_monad; discriminate Hrun).
  revert Hrun. rewrite process_market_dict. cbv zeta.
  unfold queried_token, retrieved.
  generalize (14 * 24 * 3600) as d. intros d.
  generalize (normalised_tokens w kvs) as toks. intros toks.
  destruct st as [h0 c0 f0 o0]. simpl in Hlog, Hclock. subst c0.
  unfold bind, print, ret, lift, time_time.
  cbn [http_log clock_reads fs stdout].
  destruct (truthy toks); cbn [negb].
  2: { intros Hrun. injection Hrun as <- <-. simpl. auto. }
  destruct (getitem_0 toks) as [tok | e]; [| discriminate].
  match goal with
  | |- context [get_price_history w ?t ?ts ?s0] =>
      destruct (get_price_history_returns t ts s0) as (lines & -> & _ & _)
  end.
  unfold add_lines, add_requests. cbn [http_log clock_reads fs stdout].
  rewrite Hlog.
  generalize (payload (remote w (S k) (history_request tok (clock w k - d))))
    as history.
  intros history.
  destruct (truthy history); cbn [andb].
  2: { intros Hrun. injection Hrun as <- <-. simpl.
       rewrite length_app, Hlog. simpl. repeat split; lia. }
  destruct (contains "history" history) as [[|] |]; [| | discriminate].
  2: { intros Hrun. injection Hrun as <- <-. simpl.
       rewrite length_app, Hlog. simpl. repeat split; lia. }
  destruct (getitem history "history") as [points | e] eqn:Hpoints;
    [| discriminate].
  destruct (len points) as [n | e] eqn:Hn; [| discriminate].
  cbn [http_log clock_reads fs stdout].
  destruct (getitem (JDict kvs) "id") as [id | e] eqn:Hid; [| discriminate].
  unfold json_dump, open_w, history_file, bind, ret, raise.
  cbn [interpolated http_log clock_reads fs stdout].
  destruct (unusable w id); [discriminate |].
  unfold get.
  intros Hrun. injection Hrun as <- <-.
  cbn [http_log clock_reads fs stdout].
  rewrite length_app, Hlog. simpl length.
  split; [lia |]. split; [reflexivity |].
  assert (Hkey : lookup_key "id" kvs = Some id).
  { unfold getitem in Hid. destruct (lookup_key "id" kvs); congruence. }
  eexists (mkRow (JDict kvs) _ _).
  split; [| split; [| split; reflexivity]].
  - split; [reflexivity |]. exists id. repeat split; reflexivity || exact Hid.
  - unfold row_ok. cbn [row_market row_file row_entry].
    exact (recorded_intro kvs id history points n tok Hkey Hpoints Hn).
Qed.

Lemma retrievals_sublist ms : forall k,
  sublist (map rt_market (retrievals w k ms)) ms.
Proof.
  induction ms as [| m ms IH]; intros k; simpl.
  - apply sublist_nil.
  - destruct (queried_token w m) as [tok |]; [| apply sublist_cons, IH].
    destruct (retrieved _); simpl.
    + apply sublist_skip, IH.
    + apply sublist_cons, IH.
Qed.

Lemma row_of_markets rs rows :
  Forall2 row_of rs rows -> map row_market rows = map rt_market rs.
Proof.
  induction 1 as [| r x rs rows [Hm _] _ IH]; simpl; [reflexivity |].
  by rewrite Hm, IH.
Qed.

(** A loop that does not raise records exactly the markets whose
    retrieval succeeds: one row for each, in their order. *)
Lemma for_each_retrievals ms : forall k stats st stats1 st1,
  for_each (process_market w) ms stats st = (Ok stats1, st1) ->
  length (http_log st) = S k ->
  clock_reads st = k ->
  exists rows,
    Forall2 row_of (retrievals w k ms) rows
    /\ Forall row_ok rows
    /\ stats1 = stats ++ map row_entry rows
    /\ fs st1 = fs st ++ map row_file rows.
Proof.
  induction ms as [| m ms IH]; intros k stats st stats1 st1 Hrun Hlog Hclock.
  - injection Hrun as <- <-. exists []. simpl. rewrite !app_nil_r.
    repeat split; constructor.
  - change (for_each (process_market w) (m :: ms) stats st)
      with (bind (process_market w m stats)
              (fun acc => for_each (process_market w) ms acc) st) in Hrun.
    unfold bind in Hrun.
    destruct (process_market w m stats st) as [[stats2 | e] st2] eqn:Hturn;
      [| discriminate Hrun].
    pose proof (process_market_retrieval m stats st stats2 st2 k
                  Hturn Hlog Hclock) as Hm.
    simpl retrievals.
    destruct (queried_token w m) as [tok |].
    + cbv zeta in Hm. destruct Hm as (Hlog2 & Hclock2 & Hm).
      destruct (IH (S k) stats2 st2 stats1 st1 Hrun Hlog2 Hclock2)
        as (rows & Hrows & Hok & -> & ->).
      destruct (retrieved _).
      * destruct Hm as (x & Hx & Hxok & -> & ->).
        exists (x :: rows). simpl. rewrite <- !app_assoc.
        repeat split; auto; by constructor.
      * destruct Hm as [-> ->]. exists rows. auto.
    + destruct Hm as (-> & Hfs & Hlog2 & Hclock2).
      destruct (IH k stats st2 stats1 st1 Hrun Hlog2 Hclock2)
        as (rows & Hrows & Hok & -> & ->).
      exists rows. rewrite Hfs. auto.
Qed.

Lemma no_summary_among rows stats indent :
  Forall row_ok rows ->
  ~ In (Dump summary_file stats indent)
      ([Makedirs "public/data";
        Dump event_file (resolved_event (resolved w)) (Some 2%nat)]
       ++ map row_file rows).
Proof.
  intros Hrows [Hin | [Hin | Hin]]; [discriminate | discriminate |].
  destruct (row_files_are_history_files _ _ Hrows Hin) as (id & h & Heq).
  discriminate.
Qed.

(** C6.  When [summary.json] is written, its entries are those of the
    markets whose history retrieval succeeded, one entry for each and in
    the order of the event's [markets] array: no sorting, no market left
    out, none added.  The markets whose retrieval succeeded are those of
    [retrievals]: a market with a token to query whose answer passes the
    test of line 96.  The entry of such a market carries the market's
    identifier and the token queried, and the market's history file, which
    holds the history obtained, is written in the same order. *)
Theorem summary_in_market_order stats indent :
  In (Dump summary_file stats indent) (fs (main w initial).2) ->
  exists ms rows,
    event_markets (resolved_event (resolved w)) = Ok ms
    /\ Forall2 row_of (retrievals w 0 ms) rows
    /\ sublist (map row_market rows) ms
    /\ Forall row_ok rows
    /\ stats = JList (map row_entry rows)
    /\ fs (main w initial).2 =
       [Makedirs "public/data";
        Dump event_file (resolved_event (resolved w)) (Some 2%nat)]
       ++ map row_file rows
       ++ [Dump summary_file stats indent].
Proof.
  intros Hin.
  destruct (truthy (resolved w)) eqn:Htruthy.
  2: { destruct main_without_loop as (_ & _ & Hfs); [by left |].
       rewrite Hfs in Hin. destruct Hin. }
  destruct (event_markets (resolved_event (resolved w))) as [ms | e] eqn:Hms.
  2: { destruct main_without_loop as (_ & _ & Hfs); [right; eauto |].
       rewrite Hfs in Hin. destruct Hin. }
  exists ms.
  destruct (main_runs_the_loop ms Htruthy Hms) as [lines0 Hmain].
  destruct (for_each (process_market w) ms [] (loop_start w lines0))
    as [[stats1 | e] st1] eqn:Hloop.
  - destruct (for_each_retrievals ms 0%nat [] _ stats1 st1 Hloop eq_refl eq_refl)
      as (rows & Hrows & Hok & -> & Hfs).
    assert (Hfinal : fs (main w initial).2 =
                     fs st1 ++ [Dump summary_file (JList (map row_entry rows))
                                  (Some 2%nat)]).
    { rewrite Hmain. erewrite bind_ok by apply Hloop. reflexivity. }
    rewrite Hfinal, Hfs in Hin |- *.
    apply in_app_iff in Hin as [Hin | [Hin | []]].
    { by destruct (no_summary_among rows stats indent Hok). }
    injection Hin as <- <-.
    exists rows. split; [reflexivity |]. split; [assumption |].
    split; [rewrite (row_of_markets _ _ Hrows); apply retrievals_sublist |].
    split; [assumption |]. split; [reflexivity |].
    simpl. by rewrite <- ?app_assoc.
  - destruct (for_each_process_market ms [] (loop_start w lines0))
      as (r & toks & rows & lines & Heq & _ & Hok & _).
    rewrite Hloop in Heq. injection Heq as _ ->.
    assert (Hfinal : fs (main w initial).2 =
                     [Makedirs "public/data";
                      Dump event_file (resolved_event (resolved w)) (Some 2%nat)]
                     ++ map row_file rows).
    { rewrite Hmain. erewrite bind_raise by apply Hloop. reflexivity. }
    rewrite Hfinal in Hin.
    by destruct (no_summary_among rows stats indent Hok).
Qed.

(** C8, as the code has it.  When the resolver's result passes the
    emptiness check and its event has markets to go through, [event.json]
    is written first: the loop over the markets starts with [event.json]
    written and nothing after it, whatever happens to the markets.  What
    follows is decided by the loop.  When no market's turn raises,
    [summary.json] is written, last, and the run ends normally: it has one
    entry for each market whose retrieval succeeded, as many as there are
    history files, so it is the empty array when no market yielded a
    history.  When a market's turn raises, the run ends there with that
    error, and [summary.json] is not written. *)
Theorem event_json_first_summary_last ms :
  truthy (resolved w) = true ->
  event_markets (resolved_event (resolved w)) = Ok ms ->
  exists lines rows r st,
    fs (loop_start w lines) =
      [Makedirs "public/data";
       Dump event_file (resolved_event (resolved w)) (Some 2%nat)]
    /\ for_each (process_market w) ms [] (loop_start w lines) = (r, st)
    /\ sublist (map row_market rows) ms
    /\ Forall row_ok rows
    /\ fs st =
       [Makedirs "public/data";
        Dump event_file (resolved_event (resolved w)) (Some 2%nat)]
       ++ map row_file rows
    /\ match r with
       | Ok stats =>
           Forall2 row_of (retrievals w 0 ms) rows
           /\ stats = map row_entry rows
           /\ main w initial =
              (Ok tt,
               mkState (http_log st) (clock_reads st)
                 (fs st ++ [Dump summary_file (JList stats) (Some 2%nat)])
                 (stdout st))
       | Raise e => main w initial = (Raise e, st)
       end.
Proof.
  intros Htruthy Hms.
  destruct (main_runs_the_loop ms Htruthy Hms) as [lines0 Hmain].
  exists lines0.
  destruct (for_each (process_market w) ms [] (loop_start w lines0))
    as [[stats1 | e] st1] eqn:Hloop.
  - destruct (for_each_retrievals ms 0%nat [] _ stats1 st1 Hloop eq_refl eq_refl)
      as (rows & Hrows & Hok & -> & Hfs).
    exists rows, (Ok ([] ++ map row_entry rows)), st1.
    split; [reflexivity |]. split; [reflexivity |].
    split; [rewrite (row_of_markets _ _ Hrows); apply retrievals_sublist |].
    split; [assumption |]. split; [exact Hfs |].
    split; [assumption |]. split; [reflexivity |].
    rewrite Hmain. erewrite bind_ok by apply Hloop. reflexivity.
  - destruct (for_each_process_market ms [] (loop_start w lines0))
      as (r & toks & rows & lines & Heq & Hsub & Hok & _).
    rewrite Hloop in Heq. injection Heq as _ ->.
    exists rows, (Raise e), (advance (history_requests w
                                        (clock_reads (loop_start w lines0)) toks)
                               (map row_file rows) lines (loop_start w lines0)).
    split; [reflexivity |]. split; [reflexivity |].
    split; [assumption |]. split; [assumption |]. split; [reflexivity |].
    rewrite Hmain. by erewrite bind_raise by apply Hloop.
Qed.

End Properties.

(** ** The properties on the sample runs *)



(** C2 fails on the code: with a clock that moves, the three markets of
    this run are queried with three different [startTs]. *)
Lemma start_ts_differs_between_markets :
  http_log (main world_five initial).2 =
  [events_request;
   history_request (JStr "t1") 1698790400;
   history_request (JStr "t3") 1698790401;
   history_request (JStr "t9") 1698790402].
Proof. vm_compute. reflexivity. Qed.

(** C3 fails on the code: [event.json] is written with [indent=2], as
    [summary.json] is; only the history file is compact. *)
Lemma event_json_is_indented :
  fs (main world_example initial).2 =
  [Makedirs "public/data";
   Dump [Lit "public/data/event.json"] (event_of [market_m1]) (Some 2%nat);
   Dump [Lit "public/data/history_"; Fmt (JStr "m1"); Lit ".json"]
     sample_history None;
   Dump [Lit "public/data/summary.json"]
     (JList [JDict [("id", JStr "m1"); ("question", JStr "Will A win?");
                    ("token_id", JStr "t1"); ("points", JInt 2);
                    ("volume", JInt 500)]])
     (Some 2%nat)].
Proof. vm_compute. reflexivity. Qed.

(** C3 as amended, on the history file of the example run. *)
Lemma written_files_encoding_example :
  In (Dump (history_file (JStr "m1")) sample_history None)
    (fs (main world_example initial).2)
  /\ ((history_file (JStr "m1") = event_file /\ None = Some 2%nat)
      \/ (history_file (JStr "m1") = summary_file /\ None = Some 2%nat)
      \/ (exists id, history_file (JStr "m1") = history_file id /\ @None nat = None)).
Proof.
  assert (Hin : In (Dump (history_file (JStr "m1")) sample_history None)
                  (fs (main world_example initial).2)).
  { vm_compute. right. right. left. reflexivity. }
  split; [exact Hin |].
  exact (written_files_encoding world_example _ _ _ Hin).
Defined.

(** C4 on the run whose metadata service answers with an empty array. *)
Lemma empty_array_writes_nothing_example :
  main world_empty initial =
  (Ok tt,
   mkState [events_request] 0 []
     [[Lit "Fetching event: "; Fmt (JStr "portugal-presidential-election")];
      [Lit "No events found."]]).
Proof. apply (empty_array_writes_nothing world_empty). reflexivity. Defined.

(** C5 on the third and the fourth market of the run with five markets:
    the text of the empty list, and a text that does not decode. *)
Lemma empty_token_list_skips_market_example :
  (token_list world_five market_m3 = Some []
   /\ for_each (process_market world_five) [market_m3; market_m4; market_m5] [] initial =
      for_each (process_market world_five) [market_m4; market_m5] []
        (add_lines [[Lit "Processing: "; Fmt (JStr "Will C win?")];
                    [Lit "No clobTokenIds."]] initial))
  /\ (token_list world_five market_m4 = Some []
      /\ for_each (process_market world_five) [market_m4; market_m5] [] initial =
         for_each (process_market world_five) [market_m5] []
           (add_lines [[Lit "Processing: "; Fmt (JStr "Will D win?")];
                       [Lit "No clobTokenIds."]] initial)).
Proof.
  split.
  - apply (empty_token_list_skips_market world_five
             [("id", JStr "m3"); ("question", JStr "Will C win?");
              ("clobTokenIds", JStr "[]"); ("volume", JInt 7)]
             "[]" [market_m4; market_m5] [] initial);
      [reflexivity | reflexivity | left; reflexivity].
  - apply (empty_token_list_skips_market world_five
             [("id", JStr "m4"); ("question", JStr "Will D win?");
              ("clobTokenIds", JStr "not json"); ("volume", JInt 700)]
             "not json" [market_m5] [] initial);
      [reflexivity | reflexivity | right; reflexivity].
Defined.

(** C6 on a run with four markets: the retrieval succeeds for the first,
    fails for the second, which is answered with status 503, the third has
    no token, and the fourth is answered with an empty history.  The summary
    has the entries of the first and the fourth market, in that order, with
    the volumes 500 and 1234.5. *)
Lemma summary_in_market_order_mixed :
  retrievals world_mixed 0 [market_m1; market_m2; market_m3; market_m5] =
    [mkRetrieval market_m1 (JStr "t1") sample_history;
     mkRetrieval market_m5 (JStr "t9") (JDict [("history", JList [])])]
  /\ exists ms rows,
       event_markets (resolved_event (resolved world_mixed)) = Ok ms
       /\ Forall2 row_of (retrievals world_mixed 0 ms) rows
       /\ sublist (map row_market rows) ms
       /\ Forall row_ok rows
       /\ JList [JDict [("id", JStr "m1"); ("question", JStr "Will A win?");
                        ("token_id", JStr "t1"); ("points", JInt 2);
                        ("volume", JInt 500)];
                 JDict [("id", JStr "m5"); ("question", JStr "Will E win?");
                        ("token_id", JStr "t9"); ("points", JInt 0);
                        ("volume", JFloat 1234.5%float)]]
          = JList (map row_entry rows)
       /\ fs (main world_mixed initial).2 =
          [Makedirs "public/data";
           Dump event_file (resolved_event (resolved world_mixed)) (Some 2%nat)]
          ++ map row_file rows
          ++ [Dump summary_file
                (JList [JDict [("id", JStr "m1"); ("question", JStr "Will A win?");
                               ("token_id", JStr "t1"); ("points", JInt 2);
                               ("volume", JInt 500)];
                        JDict [("id", JStr "m5"); ("question", JStr "Will E win?");
                               ("token_id", JStr "t9"); ("points", JInt 0);
                               ("volume", JFloat 1234.5%float)]])
                (Some 2%nat)].
Proof.
  split; [vm_compute; reflexivity |].
  apply (summary_in_market_order world_mixed).
  vm_compute. do 4 right. left. reflexivity.
Defined.

(** C7 fails on the code: a response with status 200 whose body is not
    JSON makes the resolver print a line and return [None]. *)
Lemma status_200_without_json_body :
  remote world_bad_body 0%nat events_request = Response (mkResponse 200 None)
  /\ get_event_data world_bad_body "portugal-presidential-election" initial =
     (Ok JNull,
      mkState [events_request] 0 []
        [[Lit "Exception fetching event: "; FmtExn JSONDecodeError]]).
Proof. split; vm_compute; reflexivity. Qed.

(** C7 as amended, on the resolver of the example run. *)
Lemma resolver_contract_example :
  get_event_data world_example "portugal-presidential-election" initial =
  (Ok (event_of [market_m1]), mkState [events_request] 0 [] []).
Proof.
  destruct (resolver_contract world_example "portugal-presidential-election" initial)
    as (v & lines & Heq & H200 & _).
  destruct (H200 (mkResponse 200 (Some (event_of [market_m1]))) (event_of [market_m1])
              eq_refl eq_refl eq_refl) as [-> ->].
  exact Heq.
Defined.

(** C8 fails on the code.  The event of the first run is resolved, its
    second market has no identifier, and the run ends there with
    [event.json] and one history file written, and no [summary.json].  The
    response of the second run is not empty either, but it is no object:
    the run ends before anything is written. *)
Lemma summary_missing_after_raise :
  (truthy (resolved world_missing_id) = true
   /\ (main world_missing_id initial).1 = Raise (KeyError (JStr "id"))
   /\ fs (main world_missing_id initial).2 =
      [Makedirs "public/data";
       Dump event_file (event_of [market_m1; market_no_id; market_m2]) (Some 2%nat);
       Dump (history_file (JStr "m1")) sample_history None])
  /\ (truthy (resolved world_not_an_event) = true
      /\ (main world_not_an_event initial).1 = Raise AttributeError
      /\ fs (main world_not_an_event initial).2 = []).
Proof. repeat split; vm_compute; reflexivity. Qed.

(** C8 as amended, on the run whose time-series service is down: no
    market's turn raises, both files are written, and the summary is the
    empty array. *)
Lemma event_json_first_summary_last_example :
  (exists lines rows r st,
     fs (loop_start world_no_history lines) =
       [Makedirs "public/data";
        Dump event_file (resolved_event (resolved world_no_history)) (Some 2%nat)]
     /\ for_each (process_market world_no_history) [market_m1; market_m2] []
          (loop_start world_no_history lines) = (r, st)
     /\ sublist (map row_market rows) [market_m1; market_m2]
     /\ Forall row_ok rows
     /\ fs st =
        [Makedirs "public/data";
         Dump event_file (resolved_event (resolved world_no_history)) (Some 2%nat)]
        ++ map row_file rows
     /\ match r with
        | Ok stats =>
            Forall2 row_of
              (retrievals world_no_history 0 [market_m1; market_m2]) rows
            /\ stats = map row_entry rows
            /\ main world_no_history initial =
               (Ok tt,
                mkState (http_log st) (clock_reads st)
                  (fs st ++ [Dump summary_file (JList stats) (Some 2%nat)])
                  (stdout st))
        | Raise e => main world_no_history initial = (Raise e, st)
        end)
  /\ retrievals world_no_history 0 [market_m1; market_m2] = []
  /\ (main world_no_history initial).1 = Ok tt
  /\ fs (main world_no_history initial).2 =
     [Makedirs "public/data";
      Dump event_file (event_of [market_m1; market_m2]) (Some 2%nat);
      Dump summary_file (JList []) (Some 2%nat)].
Proof.
  split.
  - apply (event_json_first_summary_last world_no_history [market_m1; market_m2]);
      reflexivity.
  - repeat split; vm_compute; reflexivity.
Defined.

(** C9 fails on the code: a token list that is a number is another
    anomaly of the remote data that ends the run with an uncaught error,
    here a [TypeError], and the market after it is not processed. *)
Lemma number_for_token_list_halts_the_run :
  (main world_bad_tokens initial).1 = Raise TypeError
  /\ fs (main world_bad_tokens initial).2 =
     [Makedirs "public/data";
      Dump event_file (event_of [market_bad_tokens; market_m1]) (Some 2%nat)].
Proof. split; vm_compute; reflexivity. Qed.

(** C9 as amended: the market without identifier of [world_missing_id]
    ends the loop; the first market of [world_no_history] is skipped, and
    so is the third market of [world_five]. *)
Lemma missing_id_halts_the_run_example :
  (exists lines,
      for_each (process_market world_missing_id) [market_no_id; market_m2] []
        (mkState [events_request] 0 [] [])
      = (Raise (KeyError (JStr "id")),
         advance [history_request (JStr "t5") (1700000000 - 14 * 24 * 3600)] [] lines
           (mkState [events_request] 0 [] [])))
  /\ (exists lines,
        for_each (process_market world_no_history) [market_m1; market_m2] []
          (mkState [events_request] 0 [] [])
        = for_each (process_market world_no_history) [market_m2] []
            (advance [history_request (JStr "t1") (1700000000 - 14 * 24 * 3600)]
               [] lines (mkState [events_request] 0 [] [])))
  /\ (exists lines,
        for_each (process_market world_five) [market_m3; market_m4] []
          (mkState [events_request] 0 [] [])
        = for_each (process_market world_five) [market_m4] []
            (advance [] [] lines (mkState [events_request] 0 [] []))).
Proof.
  split; [| split].
  - apply (proj1 (missing_id_halts_the_run world_missing_id
                    [("question", JStr "Will F win?");
                     ("clobTokenIds", JList [JStr "t5"; JStr "t6"])]
                    [market_m2] [] (mkState [events_request] 0 [] []))
             (JStr "t5") [JStr "t6"]
             [("history",
               JList [JDict [("t", JInt 1); ("p", JFloat 0.5%float)];
                      JDict [("t", JInt 2); ("p", JFloat 0.75%float)]])]
             (JList [JDict [("t", JInt 1); ("p", JFloat 0.5%float)];
                     JDict [("t", JInt 2); ("p", JFloat 0.75%float)]])
             2);
      reflexivity.
  - apply (proj1 (proj2 (missing_id_halts_the_run world_no_history
                           [("id", JStr "m1"); ("question", JStr "Will A win?");
                            ("clobTokenIds", JList [JStr "t1"; JStr "t2"]);
                            ("volume", JInt 500)]
                           [market_m2] [] (mkState [events_request] 0 [] [])))
             (JStr "t1") [JStr "t2"] eq_refl).
    right. left. exists (mkResponse 503 None).
    split; [reflexivity | left; discriminate].
  - apply (proj2 (proj2 (missing_id_halts_the_run world_five
                           [("id", JStr "m3"); ("question", JStr "Will C win?");
                            ("clobTokenIds", JStr "[]"); ("volume", JInt 7)]
                           [market_m4] [] (mkState [events_request] 0 [] [])))).
    reflexivity.
Defined.

(** C10 on the run whose metadata service answers with an empty array. *)
Lemma empty_list_branch_unreachable_example :
  Forall not_empty_list_message (stdout (main world_empty initial).2)
  /\ exists lines,
       (length lines <= 1)%nat
       /\ main world_empty initial =
          (Ok tt,
           mkState [events_request] 0 []
             ([Lit "Fetching event: "; Fmt (JStr "portugal-presidential-election")]
                :: lines ++ [[Lit "No events found."]])).
Proof.
  destruct (empty_list_branch_unreachable world_empty) as [Hlines Hfalsy].
  split; [exact Hlines | exact (Hfalsy eq_refl)].
Defined.

(** X4 on the history file of the example run. *)
Lemma history_files_hold_answers_example :
  In (Dump (history_file (JStr "m1")) sample_history None)
    (fs (main world_example initial).2)
  /\ holds_answer world_example (http_log (main world_example initial).2)
       (Dump (history_file (JStr "m1")) sample_history None).
Proof.
  assert (Hin : In (Dump (history_file (JStr "m1")) sample_history None)
                  (fs (main world_example initial).2)).
  { vm_compute. right. right. left. reflexivity. }
  split; [exact Hin |].
  exact (history_files_hold_answers world_example _ _ Hin).
Defined.

(** X5 on the summary of the run with five markets. *)
Lemma summary_entries_shape_five :
  Forall entry_shape
    [JDict [("id", JStr "m1"); ("question", JStr "Will A win?");
            ("token_id", JStr "t1"); ("points", JInt 2); ("volume", JInt 500)];
     JDict [("id", JStr "m2"); ("question", JStr "Will B win?");
            ("token_id", JStr "t3"); ("points", JInt 2); ("volume", JInt 10)];
     JDict [("id", JStr "m5"); ("question", JStr "Will E win?");
            ("token_id", JStr "t9"); ("points", JInt 2);
            ("volume", JFloat 1234.5%float)]].
Proof.
  apply (summary_entries_shape world_five _ (Some 2%nat)).
  vm_compute. do 5 right. left. reflexivity.
Defined.

(** X6 on an event that has a title and no markets. *)
Lemma no_market_gives_empty_summary_example :
  (main world_no_markets initial).1 = Ok tt
  /\ http_log (main world_no_markets initial).2 = [events_request]
  /\ clock_reads (main world_no_markets initial).2 = 0%nat
  /\ fs (main world_no_markets initial).2 =
     [Makedirs "public/data";
      Dump event_file (resolved_event (resolved world_no_markets)) (Some 2%nat);
      Dump summary_file (JList []) (Some 2%nat)].
Proof. apply (no_market_gives_empty_summary world_no_markets); reflexivity. Defined.

(** X7 on an event whose markets are an object keyed by identifier: the
    loop meets the key ["m1"], a string. *)
Lemma non_object_market_halts_example :
  (main world_markets_object initial).1 = Raise AttributeError
  /\ http_log (main world_markets_object initial).2 = [events_request]
  /\ fs (main world_markets_object initial).2 =
     [Makedirs "public/data";
      Dump event_file (resolved_event (resolved world_markets_object))
        (Some 2%nat)].
Proof.
  apply (non_object_market_halts world_markets_object (JStr "m1") []);
    reflexivity.
Defined.

(** X8 on a metadata service that answers with a string. *)
Lemma unusable_event_halts_before_writing_example :
  (main world_not_an_event initial).1 = Raise AttributeError
  /\ AttributeError =
     (if is_dict (resolved_event (resolved world_not_an_event)) then TypeError
      else AttributeError)
  /\ http_log (main world_not_an_event initial).2 = [events_request]
  /\ fs (main world_not_an_event initial).2 = [].
Proof.
  apply (unusable_event_halts_before_writing world_not_an_event AttributeError);
    reflexivity.
Defined.

(** X9 on a market whose [clobTokenIds] is [None]. *)
Lemma falsy_tokens_skip_market_example :
  process_market world_five
    (JDict [("id", JStr "m8"); ("clobTokenIds", JNull)]) [] initial =
  (Ok [],
   add_lines [[Lit "Processing: "; Fmt (JStr "")]; [Lit "No clobTokenIds."]]
     initial).
Proof.
  apply (falsy_tokens_skip_market world_five
           [("id", JStr "m8"); ("clobTokenIds", JNull)] [] initial).
  reflexivity.
Defined.

(** X10 on the market whose [clobTokenIds] is the number 5. *)
Lemma unusable_tokens_halt_example :
  process_market world_bad_tokens market_bad_tokens [] initial =
    (Raise TypeError,
     add_lines [[Lit "Processing: "; Fmt (JStr "Will G win?")]] initial)
  /\ (TypeError = TypeError \/ TypeError = KeyError (JInt 0)).
Proof.
  apply (unusable_tokens_halt world_bad_tokens
           [("id", JStr "m7"); ("question", JStr "Will G win?");
            ("clobTokenIds", JInt 5)] [] initial TypeError);
    reflexivity.
Defined.

(** X11 on the market of the example run. *)
Lemma first_token_is_queried_example :
  exists r ops lines,
    process_market world_example market_m1 []
      (mkState [events_request] 0 [] []) =
    (r,
     advance [history_request (JStr "t1") (1700000000 - 14 * 24 * 3600)]
       ops lines (mkState [events_request] 0 [] [])).
Proof.
  apply (first_token_is_queried world_example
           [("id", JStr "m1"); ("question", JStr "Will A win?");
            ("clobTokenIds", JList [JStr "t1"; JStr "t2"]); ("volume", JInt 500)]
           [] (mkState [events_request] 0 [] []) (JStr "t1"));
    reflexivity.
Defined.

(** X12 on a time-series service whose [history] is the number 5. *)
Lemma unusable_history_halts_example :
  TypeError = TypeError
  /\ exists lines,
       process_market world_unsized_history market_m1 []
         (mkState [events_request] 0 [] []) =
       (Raise TypeError,
        advance [history_request (JStr "t1") (1700000000 - 14 * 24 * 3600)]
          [] lines (mkState [events_request] 0 [] [])).
Proof.
  apply (unusable_history_halts world_unsized_history
           [("id", JStr "m1"); ("question", JStr "Will A win?");
            ("clobTokenIds", JList [JStr "t1"; JStr "t2"]); ("volume", JInt 500)]
           [] (mkState [events_request] 0 [] []) (JStr "t1") TypeError);
    [reflexivity | reflexivity | reflexivity |].
  right. split; [reflexivity |]. right. exists (JInt 5).
  split; reflexivity.
Defined.

(** X13 on the run whose time-series service is down. *)
Lemma no_history_gives_empty_summary_example :
  (main world_no_history initial).1 = Ok tt
  /\ http_log (main world_no_history initial).2 =
     events_request
       :: imap (fun k tok =>
                  history_request tok (clock world_no_history k - 14 * 24 * 3600))
            (first_tokens world_no_history [market_m1; market_m2])
  /\ fs (main world_no_history initial).2 =
     [Makedirs "public/data";
      Dump event_file (resolved_event (resolved world_no_history)) (Some 2%nat);
      Dump summary_file (JList []) (Some 2%nat)].
Proof.
  apply (no_history_gives_empty_summary world_no_history [market_m1; market_m2]).
  - reflexivity.
  - reflexivity.
  - repeat (apply Forall_cons_2 || apply Forall_nil_2);
      (split; [reflexivity | eexists; reflexivity]).
  - intros k tok ts. right. left. exists (mkResponse 503 None).
    split; [reflexivity | left; discriminate].
Defined.
